(** * Bako Vault CLI: the pending-transaction lifecycle

    A shallow embedding of the commands that create, sign, send and discard
    the single pending transaction kept in [.pending-tx.json], followed by
    the properties of that lifecycle.

    Conventions of the embedding:
    - the file system is read through [Env] (wallet, network and transaction
      files) and written through [World] (the pending file);
    - the BakoSafe / Fuel SDK calls are fields of [Env]; each may throw;
    - answers typed at an [inquirer] prompt are arguments of the command;
    - what a command prints is summarised by the outcome it returns. *)

From Stdlib Require Import String Ascii List ZArith Bool Lia.
Import ListNotations.

Local Open Scope string_scope.
Local Open Scope Z_scope.

(** ** JavaScript values used by the commands *)

(** An optional string property: [None] is [undefined]. *)
Definition JsString := option string.

(** Truthiness of an optional string: [undefined] and the empty string are
    falsy. *)
Definition truthy (x : JsString) : bool :=
  match x with
  | Some s => negb (String.eqb s EmptyString)
  | None => false
  end.

(** [a || b] with [b] a string. *)
Definition or_else (a : JsString) (b : string) : string :=
  match a with
  | Some s => if String.eqb s EmptyString then b else s
  | None => b
  end.

(** The double quote character, for the texts that hold one. *)
Definition dq : string := String (Ascii.ascii_of_nat 34) EmptyString.

(** A thrown [Error]; only its message is kept. *)
Inductive Result (A : Type) : Type :=
| Ok (a : A)
| Throw (message : string).
Arguments Ok {A} a.
Arguments Throw {A} message.

Definition is_ok {A} (r : Result A) : bool :=
  match r with Ok _ => true | Throw _ => false end.

(** What reading and parsing a JSON file gives. *)
Inductive FileContent (A : Type) : Type :=
| NoFile
| BadJson (message : string)
| Json (a : A).
Arguments NoFile {A}.
Arguments BadJson {A} message.
Arguments Json {A} a.

(** ** types.ts *)

Record Signature := mkSignature {
  signer : string;
  signature : string
}.

Definition Signature_eqb (a b : Signature) : bool :=
  String.eqb (signer a) (signer b) && String.eqb (signature a) (signature b).

(** An element of [pending.signatures] as it exists at run time. [types.ts]
    declares the elements as [Signature] objects; the [sign] command pushes
    the string [JSON.stringify({ signer, signature })]. [SigText s] stands for
    that string: two such strings are equal exactly when both fields are. *)
Inductive SigEntry :=
| SigObject (s : Signature)
| SigText (s : Signature).

(** [e.signer] and [e.signature]: a string has neither property. *)
Definition entry_signer (e : SigEntry) : JsString :=
  match e with
  | SigObject s => Some (signer s)
  | SigText _ => None
  end.

Definition entry_signature (e : SigEntry) : JsString :=
  match e with
  | SigObject s => Some (signature s)
  | SigText _ => None
  end.

(** The signer and signature an entry carries, whichever its form. *)
Definition entry_content (e : SigEntry) : Signature :=
  match e with
  | SigObject s => s
  | SigText s => s
  end.

(** [SIGNATURES_COUNT] is a number of signatures; it is kept as an
    integer, as is [requiredSignatures] below, which is copied from it. *)
Record PredicateConfigurable := mkPredicateConfigurable {
  SIGNATURES_COUNT : Z;
  SIGNERS : list string;
  HASH_PREDICATE : JsString
}.

Record WalletConfig := mkWalletConfig {
  wallet_name : string;
  config : PredicateConfigurable;
  version : string
}.

Record NetworkAssets := mkNetworkAssets {
  ETH : string;
  USDC : JsString
}.

Record NetworkConfig := mkNetworkConfig {
  network_name : string;
  url : string;
  assets : NetworkAssets;
  explorerUrl : JsString
}.

(** [{ ...walletConfig, network: networkConfig }] *)
Record VaultConfig := mkVaultConfig {
  wallet : WalletConfig;
  network : NetworkConfig
}.

Record TransactionInput := mkTransactionInput {
  to : string;
  amount : string;
  assetId : JsString
}.

Record PendingTransaction := mkPendingTransaction {
  walletName : string;
  networkName : string;
  hashTxId : string;
  encodedTxId : string;
  txRequest : string;
  transaction : TransactionInput;
  createdAt : string;
  signatures : list SigEntry;
  requiredSignatures : Z
}.

Record TransactionFile := mkTransactionFile {
  file_to : string;
  file_amount : string;
  file_assetId : JsString
}.

(** ** The parsed JSON of the configuration files, before validation *)

Record RawPredicateConfigurable := mkRawPredicateConfigurable {
  raw_SIGNATURES_COUNT : option Z;
  raw_SIGNERS : option (list string);
  raw_HASH_PREDICATE : JsString
}.

Record RawWalletConfig := mkRawWalletConfig {
  raw_config : option RawPredicateConfigurable;
  raw_version : JsString
}.

Record RawNetworkAssets := mkRawNetworkAssets {
  raw_ETH : JsString;
  raw_USDC : JsString
}.

Record RawNetworkConfig := mkRawNetworkConfig {
  raw_url : JsString;
  raw_assets : option RawNetworkAssets;
  raw_explorerUrl : JsString
}.

(** ** The SDK objects *)

(** The arguments of [new Vault(provider, vaultConfig, config.version)]. *)
Record Vault := mkVault {
  provider_url : string;
  vault_SIGNATURES_COUNT : Z;
  vault_SIGNERS : list string;
  vault_HASH_PREDICATE : JsString;
  vault_version : string
}.

(** A transaction request: what [vault.transaction] built, and its
    [witnesses] array. *)
Record Tx := mkTx {
  tx_request : string;
  witnesses : list string
}.

Record Response := mkResponse {
  response_id : string
}.

(** ** The environment and the world *)

Record Env := mkEnv {
  wallet_files : string -> FileContent RawWalletConfig;
  network_files : string -> FileContent RawNetworkConfig;
  tx_files : string -> FileContent TransactionFile;
  (** [new Date().toISOString()] *)
  clock : string;
  (** [Wallet.fromPrivateKey(pk).address.toB256()] *)
  Wallet_fromPrivateKey : string -> Result string;
  (** [wallet.signMessage(hash)] for the wallet of a private key *)
  wallet_signMessage : string -> string -> Result string;
  (** whether constructing the provider and the vault throws *)
  new_Vault : Vault -> Result unit;
  (** [vault.address.toB256()] *)
  vault_address : Vault -> string;
  (** [vault.transaction({ assets: [{ assetId, amount, to }] })]: the
      transaction and its [hashTxId] *)
  vault_transaction : Vault -> string -> string -> string -> Result (Tx * string);
  vault_encodeSignature : Vault -> JsString -> JsString -> Result string;
  vault_send : Vault -> Tx -> Result Response;
  (** [response.waitForResult()]: the [status] of the result *)
  response_waitForResult : Response -> Result JsString
}.

(** The mutable part: the pending file, and the transactions handed to
    [vault.send] so far (oldest first). *)
Record World := mkWorld {
  pending_file : option PendingTransaction;
  sent : list Tx
}.

(** ** Commands: state passing with exceptions *)

Definition M (A : Type) : Type := World -> World * Result A.

Definition ret {A} (a : A) : M A := fun w => (w, Ok a).

Definition bind {A B} (m : M A) (k : A -> M B) : M B :=
  fun w =>
    match m w with
    | (w', Ok a) => k a w'
    | (w', Throw e) => (w', Throw e)
    end.

Definition lift {A} (r : Result A) : M A := fun w => (w, r).

(** [try { m } catch (error) { handler(error.message) }] *)
Definition try_catch {A} (m : M A) (handler : string -> M A) : M A :=
  fun w =>
    match m w with
    | (w', Ok a) => (w', Ok a)
    | (w', Throw e) => handler e w'
    end.

Declare Scope cmd_scope.
Delimit Scope cmd_scope with cmd.
Notation "x <- m ;; k" := (bind m (fun x => k))
  (at level 61, m at next level, right associativity) : cmd_scope.
Notation "m ;;; k" := (bind m (fun _ => k))
  (at level 61, right associativity) : cmd_scope.
Local Open Scope cmd_scope.

(** ** utils/config.ts *)

Definition hasPendingTransaction (w : World) : bool :=
  match pending_file w with Some _ => true | None => false end.

Definition savePendingTransaction (pending : PendingTransaction) : M unit :=
  fun w => ({| pending_file := Some pending; sent := sent w |}, Ok tt).

Definition loadPendingTransaction : M PendingTransaction :=
  fun w =>
    match pending_file w with
    | None =>
        (w, Throw "No pending transaction found. Create one first with: bako-vault create-tx")
    | Some pending => (w, Ok pending)
    end.

Definition deletePendingTransaction : M unit :=
  fun w =>
    if hasPendingTransaction w
    then ({| pending_file := None; sent := sent w |}, Ok tt)
    else (w, Ok tt).

Definition zero_address : string :=
  "0x0000000000000000000000000000000000000000000000000000000000000000".

(** [SIGNERS.filter(s => s !== zero_address)] *)
Definition validSigners (signers : list string) : list string :=
  filter (fun s => negb (String.eqb s zero_address)) signers.

(** [validateWalletConfig]; the checked object is returned with its fields
    no longer optional. *)
Definition validateWalletConfig (name : string) (raw : RawWalletConfig)
  : Result WalletConfig :=
  match raw_config raw with
  | None => Throw ("Wallet config must have a " ++ dq ++ "config" ++ dq ++ " object")
  | Some c =>
      match raw_SIGNERS c with
      | None => Throw "Wallet config must have SIGNERS array"
      | Some [] => Throw "Wallet config must have SIGNERS array"
      | Some signers =>
          match raw_SIGNATURES_COUNT c with
          | None => Throw "SIGNATURES_COUNT must be at least 1"
          | Some count =>
              if (count =? 0) || (count <? 1)
              then Throw "SIGNATURES_COUNT must be at least 1"
              else if negb (truthy (raw_version raw))
              then Throw ("Wallet config must have a " ++ dq ++ "version" ++ dq ++ " field")
              else if count >? Z.of_nat (length (validSigners signers))
              then Throw "SIGNATURES_COUNT cannot be greater than number of valid signers"
              else Ok {| wallet_name := name;
                         config := {| SIGNATURES_COUNT := count;
                                      SIGNERS := signers;
                                      HASH_PREDICATE := raw_HASH_PREDICATE c |};
                         version := or_else (raw_version raw) EmptyString |}
          end
      end
  end.

Definition loadWalletConfig (env : Env) (name : string) : Result WalletConfig :=
  match wallet_files env name with
  | NoFile =>
      Throw ("Wallet " ++ dq ++ name ++ dq ++ " not found. Create a file at wallets/"
             ++ name ++ ".json")
  | BadJson e => Throw e
  | Json raw => validateWalletConfig name raw
  end.

Definition validateNetworkConfig (name : string) (raw : RawNetworkConfig)
  : Result NetworkConfig :=
  if negb (truthy (raw_url raw))
  then Throw "Network config must have a url"
  else
    match raw_assets raw with
    | None => Throw "Network config must have assets.ETH"
    | Some a =>
        if negb (truthy (raw_ETH a))
        then Throw "Network config must have assets.ETH"
        else Ok {| network_name := name;
                   url := or_else (raw_url raw) EmptyString;
                   assets := {| ETH := or_else (raw_ETH a) EmptyString; USDC := raw_USDC a |};
                   explorerUrl := raw_explorerUrl raw |}
    end.

Definition loadNetworkConfig (env : Env) (name : string) : Result NetworkConfig :=
  match network_files env name with
  | NoFile =>
      Throw ("Network " ++ dq ++ name ++ dq ++ " not found. Create a file at networks/"
             ++ name ++ ".json")
  | BadJson e => Throw e
  | Json raw => validateNetworkConfig name raw
  end.

(** ** services/vault.ts *)

Definition createVaultInstance (env : Env) (cfg : VaultConfig) : Result Vault :=
  let c := config (wallet cfg) in
  let vault :=
    {| provider_url := url (network cfg);
       vault_SIGNATURES_COUNT := SIGNATURES_COUNT c;
       vault_SIGNERS := SIGNERS c;
       vault_HASH_PREDICATE :=
         if truthy (HASH_PREDICATE c) then HASH_PREDICATE c else None;
       vault_version := version (wallet cfg) |} in
  match new_Vault env vault with
  | Ok _ => Ok vault
  | Throw e => Throw e
  end.

(** ** services/transaction.ts *)

Record CreateTxResult := mkCreateTxResult {
  created_hashTxId : string;
  vaultAddress : string;
  signersRequired : Z
}.

Record SendTxResult := mkSendTxResult {
  transactionId : string;
  status : string
}.

Definition createTransaction (env : Env) (cfg : VaultConfig)
    (input : TransactionInput) : M CreateTxResult :=
  vault <- lift (createVaultInstance env cfg) ;;
  let asset := or_else (assetId input) (ETH (assets (network cfg))) in
  built <- lift (vault_transaction env vault asset (amount input) (to input)) ;;
  let pending :=
    {| walletName := wallet_name (wallet cfg);
       networkName := network_name (network cfg);
       hashTxId := snd built;
       encodedTxId := snd built;
       txRequest := tx_request (fst built);
       transaction := input;
       createdAt := clock env;
       signatures := [];
       requiredSignatures := SIGNATURES_COUNT (config (wallet cfg)) |} in
  savePendingTransaction pending ;;;
  ret {| created_hashTxId := snd built;
         vaultAddress := vault_address env vault;
         signersRequired := SIGNATURES_COUNT (config (wallet cfg)) |}.

(** The loop that fills [witnesses]: one [vault.encodeSignature(sig.signer,
    sig.signature)] per element, in order; the first throw ends it. *)
Fixpoint encodeWitnesses (env : Env) (vault : Vault) (sigs : list SigEntry)
  : Result (list string) :=
  match sigs with
  | [] => Ok []
  | sig :: rest =>
      match vault_encodeSignature env vault (entry_signer sig) (entry_signature sig) with
      | Throw e => Throw e
      | Ok encodedSignature =>
          match encodeWitnesses env vault rest with
          | Throw e => Throw e
          | Ok more => Ok (encodedSignature :: more)
          end
      end
  end.

(** [vault.send(tx)]: the call is recorded, whatever it returns. *)
Definition vaultSend (env : Env) (vault : Vault) (tx : Tx) : M Response :=
  fun w =>
    ({| pending_file := pending_file w; sent := (sent w ++ [tx])%list |},
     vault_send env vault tx).

Definition sendTransaction (env : Env) (cfg : VaultConfig)
    (sigs : list SigEntry) : M SendTxResult :=
  vault <- lift (createVaultInstance env cfg) ;;
  pending <- loadPendingTransaction ;;
  let asset :=
    or_else (assetId (transaction pending)) (ETH (assets (network cfg))) in
  built <- lift (vault_transaction env vault asset
                   (amount (transaction pending)) (to (transaction pending))) ;;
  encoded <- lift (encodeWitnesses env vault sigs) ;;
  let tx := {| tx_request := tx_request (fst built); witnesses := encoded |} in
  response <- vaultSend env vault tx ;;
  result_status <- lift (response_waitForResult env response) ;;
  deletePendingTransaction ;;;
  ret {| transactionId := response_id response;
         status := or_else result_status "success" |}.

(** ** commands/create-tx.ts *)

Record CreateTxOptions := mkCreateTxOptions {
  opt_wallet : JsString;
  opt_network : JsString;
  opt_to : JsString;
  opt_amount : JsString;
  opt_asset : JsString;
  opt_file : JsString
}.

(** What [createTx] reports. [Conflict] is the refusal printed as
    "Keeping existing transaction" when the replace prompt is declined. *)
Inductive CreateTxOutcome :=
| Conflict (existing : PendingTransaction)
| WalletRequired
| NetworkRequired
| FileNotFound (path : string)
| ToAndAmountRequired
| Created (result : CreateTxResult)
| CreateFailed (message : string).

(** The transaction details, from [--file] or from [--to] and [--amount]. *)
Definition readTxInput (env : Env) (options : CreateTxOptions)
  : Result (CreateTxOutcome + TransactionInput) :=
  if truthy (opt_file options) then
    match tx_files env (or_else (opt_file options) EmptyString) with
    | NoFile => Ok (inl (FileNotFound (or_else (opt_file options) EmptyString)))
    | BadJson e => Throw e
    | Json txFile =>
        Ok (inr {| to := file_to txFile;
                   amount := file_amount txFile;
                   assetId := file_assetId txFile |})
    end
  else if truthy (opt_to options) && truthy (opt_amount options) then
    Ok (inr {| to := or_else (opt_to options) EmptyString;
               amount := or_else (opt_amount options) EmptyString;
               assetId := opt_asset options |})
  else Ok (inl ToAndAmountRequired).

(** The part of [createTx] after the check for an existing transaction. *)
Definition createTx_new (env : Env) (options : CreateTxOptions) : M CreateTxOutcome :=
  if negb (truthy (opt_wallet options)) then ret WalletRequired
  else if negb (truthy (opt_network options)) then ret NetworkRequired
  else
    input <- lift (readTxInput env options) ;;
    match input with
    | inl refused => ret refused
    | inr txInput =>
        try_catch
          (walletConfig <- lift (loadWalletConfig env (or_else (opt_wallet options) EmptyString)) ;;
           networkConfig <- lift (loadNetworkConfig env (or_else (opt_network options) EmptyString)) ;;
           let cfg := {| wallet := walletConfig; network := networkConfig |} in
           result <- createTransaction env cfg txInput ;;
           ret (Created result))
          (fun e => ret (CreateFailed e))
    end.

(** [createTx]; [replace] is the answer to "Replace the pending
    transaction?", asked only when one exists. *)
Definition createTx (env : Env) (options : CreateTxOptions) (replace : bool)
  : M CreateTxOutcome :=
  fun w =>
    if hasPendingTransaction w then
      (pending <- loadPendingTransaction ;;
       if negb replace then ret (Conflict pending)
       else deletePendingTransaction ;;; createTx_new env options) w
    else createTx_new env options w.

(** ** commands/sign.ts *)

Record SignOptions := mkSignOptions {
  pk : JsString
}.

Record SignAnswers := mkSignAnswers {
  pk_answer : string;
  sendNow : bool
}.

(** What the command printed about the new signature. *)
Record SignReport := mkSignReport {
  signerAddress : string;
  newSignature : string;
  currentSignatures : Z;
  required : Z
}.

Inductive SendStep :=
| Sent (result : SendTxResult)
| SendError (message : string)
| NotSentNow.

(** [ThresholdReached] is the branch that prints "Threshold reached! Ready
    to send."; [NeedMore] the one that prints how many signatures are still
    needed. *)
Inductive SignOutcome :=
| SignNoPending
| ThresholdReached (report : SignReport) (step : SendStep)
| NeedMore (report : SignReport)
| SignError (message : string).

(** [options.pk], or the key typed at the prompt when that is missing. *)
Definition privateKeyOf (options : SignOptions) (answers : SignAnswers) : string :=
  if truthy (pk options) then or_else (pk options) EmptyString
  else pk_answer answers.

(** [pending.signatures.includes(sigEntry)] for the string [sigEntry]: only
    an equal string is found. *)
Definition includes (entries : list SigEntry) (sigEntry : Signature) : bool :=
  existsb (fun e => match e with
                    | SigText s => Signature_eqb s sigEntry
                    | SigObject _ => false
                    end) entries.

(** [pending.signatures.push(entry)] *)
Definition push_signature (pending : PendingTransaction) (entry : SigEntry)
  : PendingTransaction :=
  {| walletName := walletName pending;
     networkName := networkName pending;
     hashTxId := hashTxId pending;
     encodedTxId := encodedTxId pending;
     txRequest := txRequest pending;
     transaction := transaction pending;
     createdAt := createdAt pending;
     signatures := (signatures pending ++ [entry])%list;
     requiredSignatures := requiredSignatures pending |}.

Definition sign (env : Env) (options : SignOptions) (answers : SignAnswers)
  : M SignOutcome :=
  fun w =>
    if negb (hasPendingTransaction w) then (w, Ok SignNoPending)
    else
      (pending <- loadPendingTransaction ;;
       let privateKey := privateKeyOf options answers in
       try_catch
         (signerAddress <- lift (Wallet_fromPrivateKey env privateKey) ;;
          signature <- lift (wallet_signMessage env privateKey (hashTxId pending)) ;;
          let currentSignatures := Z.of_nat (length (signatures pending)) + 1 in
          let requiredSignatures := requiredSignatures pending in
          let report := {| signerAddress := signerAddress;
                           newSignature := signature;
                           currentSignatures := currentSignatures;
                           required := requiredSignatures |} in
          let sig := {| signer := signerAddress; signature := signature |} in
          if currentSignatures >=? requiredSignatures then
            if sendNow answers then
              try_catch
                (walletConfig <- lift (loadWalletConfig env (walletName pending)) ;;
                 networkConfig <- lift (loadNetworkConfig env (networkName pending)) ;;
                 let cfg := {| wallet := walletConfig; network := networkConfig |} in
                 result <- sendTransaction env cfg [SigObject sig] ;;
                 ret (ThresholdReached report (Sent result)))
                (fun e => ret (ThresholdReached report (SendError e)))
            else ret (ThresholdReached report NotSentNow)
          else
            (if negb (includes (signatures pending) sig)
             then savePendingTransaction (push_signature pending (SigText sig))
             else ret tt) ;;;
            ret (NeedMore report))
         (fun e => ret (SignError e))) w.

(** ** commands/send-tx.ts *)

(** The options object built from the [send-tx] flags declared in
    [index.ts]: [-n], [-s] and [-S]. *)
Record SendTxOptions := mkSendTxOptions {
  send_network : JsString;
  send_signer : JsString;
  send_signature : JsString
}.

Inductive SendTxOutcome :=
| SendNoPending
| InsufficientSignatures (have need : Z)
| SendCancelled
| Submitted (result : SendTxResult)
| SendFailed (message : string).

Definition JsString_eq_dec (a b : JsString) : {a = b} + {a <> b}.
Proof. decide equality. apply string_dec. Defined.

(** [new Set(signatures.map((s) => s.signer)).size] *)
Definition uniqueCount (sigs : list SigEntry) : Z :=
  Z.of_nat (length (nodup JsString_eq_dec (map entry_signer sigs))).

(** The command that sends the signatures stored in the pending
    transaction. Its options interface declares [network] only; the other
    properties of the options object are never read. *)
Definition sendTx (env : Env) (options : SendTxOptions) (confirm_send : bool)
  : M SendTxOutcome :=
  fun w =>
    if negb (hasPendingTransaction w) then (w, Ok SendNoPending)
    else
      (pending <- loadPendingTransaction ;;
       let sigs := signatures pending in
       if uniqueCount sigs <? requiredSignatures pending
       then ret (InsufficientSignatures (uniqueCount sigs) (requiredSignatures pending))
       else if negb confirm_send then ret SendCancelled
       else
         try_catch
           (walletConfig <- lift (loadWalletConfig env (walletName pending)) ;;
            networkConfig <- lift (loadNetworkConfig env
                               (or_else (send_network options) (networkName pending))) ;;
            let cfg := {| wallet := walletConfig; network := networkConfig |} in
            result <- sendTransaction env cfg sigs ;;
            ret (Submitted result))
           (fun e => ret (SendFailed e))) w.

(** The form of the command kept in [src/commands/send-tx.ts]: the
    signatures come from [-s]/[-S] or are typed at the prompt, one per
    required signature; the stored ones are not read. *)
Module SendTxCli.

(** The interactive loop [for (let i = 0; i < required; i++)];
    [typed i] is the i-th pair entered. *)
Fixpoint collect (typed : nat -> Signature) (i n : nat) : list SigEntry :=
  match n with
  | O => []
  | S n' => SigObject (typed i) :: collect typed (S i) n'
  end.

Definition sendTx (env : Env) (options : SendTxOptions)
    (typed : nat -> Signature) (confirm_send : bool) : M SendTxOutcome :=
  fun w =>
    if negb (hasPendingTransaction w) then (w, Ok SendNoPending)
    else
      (pending <- loadPendingTransaction ;;
       let sigs :=
         if truthy (send_signer options) && truthy (send_signature options)
         then [SigObject {| signer := or_else (send_signer options) EmptyString;
                            signature := or_else (send_signature options) EmptyString |}]
         else collect typed 0 (Z.to_nat (requiredSignatures pending)) in
       if Z.of_nat (length sigs) <? requiredSignatures pending
       then ret (InsufficientSignatures (Z.of_nat (length sigs))
                   (requiredSignatures pending))
       else if negb confirm_send then ret SendCancelled
       else
         try_catch
           (walletConfig <- lift (loadWalletConfig env (walletName pending)) ;;
            networkConfig <- lift (loadNetworkConfig env
                               (or_else (send_network options) (networkName pending))) ;;
            let cfg := {| wallet := walletConfig; network := networkConfig |} in
            result <- sendTransaction env cfg sigs ;;
            ret (Submitted result))
           (fun e => ret (SendFailed e))) w.

End SendTxCli.

(** ** Running a command *)


Definition world_after {A} (m : M A) (w : World) : World := fst (m w).
Definition outcome_of {A} (m : M A) (w : World) : Result A := snd (m w).

(** The gate of [sendTx] as a predicate on the world: a pending transaction
    exists and the count of unique signers read from it is not below
    [requiredSignatures]. *)
Definition readyToSend (w : World) : bool :=
  match pending_file w with
  | Some pending =>
      negb (uniqueCount (signatures pending) <? requiredSignatures pending)
  | None => false
  end.

(** ** Reading a wallet file's fields *)

(** [config.config.SIGNATURES_COUNT], when the file has it. *)
Definition configuredCount (raw : RawWalletConfig) : option Z :=
  match raw_config raw with
  | Some c => raw_SIGNATURES_COUNT c
  | None => None
  end.

(** [config.config.SIGNERS], empty when the file has none. *)
Definition configuredSigners (raw : RawWalletConfig) : list string :=
  match raw_config raw with
  | Some c => match raw_SIGNERS c with Some signers => signers | None => [] end
  | None => []
  end.

(** The threshold is above the number of signers other than the zero
    address. *)
Definition countExceedsValidSigners (raw : RawWalletConfig) : Prop :=
  exists count,
    configuredCount raw = Some count /\
    count > Z.of_nat (length (validSigners (configuredSigners raw))).

Definition countAtLeastOne (raw : RawWalletConfig) : Prop :=
  exists count, configuredCount raw = Some count /\ 1 <= count.

(** ** Sequences of [sign] invocations *)

(** One run of the [sign] command: the environment it runs in, its options
    and the answers given at its prompts. *)
Record SignCall := mkSignCall {
  call_env : Env;
  call_options : SignOptions;
  call_answers : SignAnswers
}.

Definition run_sign (c : SignCall) : M SignOutcome :=
  sign (call_env c) (call_options c) (call_answers c).

Fixpoint sign_each (calls : list SignCall) (w : World) : World :=
  match calls with
  | [] => w
  | c :: rest => sign_each rest (world_after (run_sign c) w)
  end.

(** The signer address and signature a run derives for the hash, when both
    SDK calls succeed. *)
Definition signedBy (hash : string) (c : SignCall) : option Signature :=
  let privateKey := privateKeyOf (call_options c) (call_answers c) in
  match Wallet_fromPrivateKey (call_env c) privateKey with
  | Ok address =>
      match wallet_signMessage (call_env c) privateKey hash with
      | Ok bytes => Some {| signer := address; signature := bytes |}
      | Throw _ => None
      end
  | Throw _ => None
  end.

Fixpoint submitted (hash : string) (calls : list SignCall) : list Signature :=
  match calls with
  | [] => []
  | c :: rest =>
      match signedBy hash c with
      | Some s => s :: submitted hash rest
      | None => submitted hash rest
      end
  end.

Definition Signature_eq_dec (a b : Signature) : {a = b} + {a <> b}.
Proof. decide equality; apply string_dec. Defined.

(** The distinct signer addresses among signatures, and among the entries
    that carry them. *)
Definition distinctSigners (sigs : list Signature) : list string :=
  nodup string_dec (map signer sigs).

Definition storedSigners (entries : list SigEntry) : list string :=
  distinctSigners (map entry_content entries).


(** The same pending transaction with another signature list. *)
Definition with_signatures (pending : PendingTransaction)
    (entries : list SigEntry) : PendingTransaction :=
  {| walletName := walletName pending;
     networkName := networkName pending;
     hashTxId := hashTxId pending;
     encodedTxId := encodedTxId pending;
     txRequest := txRequest pending;
     transaction := transaction pending;
     createdAt := createdAt pending;
     signatures := entries;
     requiredSignatures := requiredSignatures pending |}.

(** The distinct submitted signatures whose text is not stored yet. *)
Definition newEntries (stored : list SigEntry) (sigs : list Signature)
  : list Signature :=
  nodup Signature_eq_dec (filter (fun sig => negb (includes stored sig)) sigs).

(** No run of the sequence accepts the offer to send. *)
Definition noneSendsNow (calls : list SignCall) : Prop :=
  Forall (fun c => sendNow (call_answers c) = false) calls.

(** What [sign] prints about a signature for the stored transaction. *)
Definition reportOf (pending : PendingTransaction) (sig : Signature) : SignReport :=
  {| signerAddress := signer sig;
     newSignature := signature sig;
     currentSignatures := Z.of_nat (length (signatures pending)) + 1;
     required := requiredSignatures pending |}.

(** ** A concrete environment

    One wallet file per threshold ([solo]: 1 of 1, [duo]: 2 of 2, anything
    else: 3 of 3), one network, and an SDK whose calls all succeed.
    [nonce] is the randomness of the signing call. *)

Definition alice : string := "0xa11ce".
Definition bob : string := "0xb0b".
Definition carol : string := "0xca201".

Definition demo_wallet (name : string) : RawWalletConfig :=
  let threshold :=
    if String.eqb name "solo" then (1, [alice])
    else if String.eqb name "duo" then (2, [alice; bob])
    else (3, [alice; bob; carol]) in
  {| raw_config := Some {| raw_SIGNATURES_COUNT := Some (fst threshold);
                           raw_SIGNERS := Some (snd threshold);
                           raw_HASH_PREDICATE := None |};
     raw_version := Some "0xversion" |}.

Definition demo_network : RawNetworkConfig :=
  {| raw_url := Some "https://testnet.fuel.network/v1/graphql";
     raw_assets := Some {| raw_ETH := Some "0xeth"; raw_USDC := None |};
     raw_explorerUrl := None |}.

Definition show (x : JsString) : string :=
  match x with Some s => s | None => "undefined" end.

Definition demo_env (nonce : string) : Env :=
  {| wallet_files := fun name => Json (demo_wallet name);
     network_files := fun _ => Json demo_network;
     tx_files := fun _ => NoFile;
     clock := "2025-01-01T00:00:00.000Z";
     Wallet_fromPrivateKey := fun key => Ok ("0x" ++ key);
     wallet_signMessage := fun key hash => Ok ("sig-" ++ key ++ "-" ++ nonce);
     new_Vault := fun _ => Ok tt;
     vault_address := fun _ => "0xvault";
     vault_transaction := fun _ asset amount to =>
       Ok ({| tx_request := to ++ "/" ++ amount ++ "/" ++ asset; witnesses := [] |},
           "0xhash");
     vault_encodeSignature := fun _ s b => Ok (show s ++ ":" ++ show b);
     vault_send := fun _ _ => Ok {| response_id := "0xtx" |};
     response_waitForResult := fun _ => Ok (Some "success") |}.

(** The same environment with the node unreachable. *)
Definition offline_env (nonce : string) : Env :=
  let env := demo_env nonce in
  {| wallet_files := wallet_files env;
     network_files := network_files env;
     tx_files := tx_files env;
     clock := clock env;
     Wallet_fromPrivateKey := Wallet_fromPrivateKey env;
     wallet_signMessage := wallet_signMessage env;
     new_Vault := new_Vault env;
     vault_address := vault_address env;
     vault_transaction := vault_transaction env;
     vault_encodeSignature := vault_encodeSignature env;
     vault_send := fun _ _ => Throw "fetch failed";
     response_waitForResult := response_waitForResult env |}.

(** A pending transaction of the given wallet with the given entries. *)
Definition demo_pending (walletName : string) (required : Z)
    (entries : list SigEntry) : PendingTransaction :=
  {| walletName := walletName;
     networkName := "testnet";
     hashTxId := "0xhash";
     encodedTxId := "0xhash";
     txRequest := "0xdead/0.001/0xeth";
     transaction := {| to := "0xdead"; amount := "0.001"; assetId := None |};
     createdAt := "2025-01-01T00:00:00.000Z";
     signatures := entries;
     requiredSignatures := required |}.

Definition world_with (pending : PendingTransaction) : World :=
  {| pending_file := Some pending; sent := [] |}.

(** A wallet file whose only signer is the zero address. *)
Definition zero_only_wallet : RawWalletConfig :=
  {| raw_config := Some {| raw_SIGNATURES_COUNT := Some 1;
                           raw_SIGNERS := Some [zero_address];
                           raw_HASH_PREDICATE := None |};
     raw_version := Some "0xversion" |}.

Definition no_flags : SendTxOptions :=
  {| send_network := None; send_signer := None; send_signature := None |}.

(** A 2-of-2 transaction holding the signature of [alice] only. *)
Definition duo_signed_by_alice : PendingTransaction :=
  demo_pending "duo" 2 [SigObject {| signer := alice; signature := "sig-a11ce-n" |}].

(** A 1-of-1 transaction holding the signature it needs. *)
Definition solo_signed : PendingTransaction :=
  demo_pending "solo" 1 [SigObject {| signer := alice; signature := "sig-a11ce-n" |}].

Definition demo_tx (encoded : list string) : Tx :=
  {| tx_request := "0xdead/0.001/0xeth"; witnesses := encoded |}.

(** [-s] and [-S] given on the command line. *)
Definition bob_flags : SendTxOptions :=
  {| send_network := None;
     send_signer := Some bob;
     send_signature := Some "sig-b0b-n" |}.

(** A [sign] run with the key on the command line. *)
Definition sign_call (env : Env) (key : string) (send : bool) : SignCall :=
  {| call_env := env;
     call_options := {| pk := Some key |};
     call_answers := {| pk_answer := EmptyString; sendNow := send |} |}.

(** A 3-of-3 transaction nobody has signed yet. *)
Definition trio_unsigned : PendingTransaction := demo_pending "trio" 3 [].

(** A 1-of-1 transaction nobody has signed yet, and one run by [alice]
    that declines to send. *)
Definition solo_unsigned : PendingTransaction := demo_pending "solo" 1 [].

Definition alice_once : list SignCall :=
  [sign_call (demo_env "n1") "a11ce" false].

(** [alice], [bob], then [alice] again with the same bytes. *)
Definition alice_bob_alice : list SignCall :=
  [sign_call (demo_env "n1") "a11ce" false;
   sign_call (demo_env "n1") "b0b" false;
   sign_call (demo_env "n1") "a11ce" false].

(** [alice] signs the 1-of-1 transaction and declines to send. *)
Definition alice_declines : SignCall := sign_call (demo_env "n1") "a11ce" false.

(** [bob] signs and accepts the offer to send. *)
Definition bob_sends : SignCall := sign_call (demo_env "n") "b0b" true.

(** The second of those runs. *)
Definition alice_again : SignCall := sign_call (demo_env "n2") "a11ce" false.

Definition alice_first : Signature :=
  {| signer := alice; signature := "sig-a11ce-n1" |}.

Definition alice_second : Signature :=
  {| signer := alice; signature := "sig-a11ce-n2" |}.

(** The 3-of-3 transaction after the first of those runs. *)
Definition trio_signed_once : PendingTransaction :=
  demo_pending "trio" 3 [SigText alice_first].

(** ** utils/config.ts: listing a configuration directory *)

(** The rest of [s] after [pattern], when [s] starts with it. *)
Fixpoint stripPrefix (pattern s : string) : option string :=
  match pattern, s with
  | EmptyString, _ => Some s
  | String _ _, EmptyString => None
  | String a pattern', String b s' =>
      if Ascii.eqb a b then stripPrefix pattern' s' else None
  end.

(** [s.endsWith(suffix)] *)
Fixpoint endsWith (s suffix : string) : bool :=
  if String.eqb s suffix then true
  else match s with
       | EmptyString => false
       | String _ rest => endsWith rest suffix
       end.

(** [s.replace(pattern, '')]: the leftmost occurrence of [pattern] is
    removed. *)
Fixpoint removeFirst (s pattern : string) : string :=
  match stripPrefix pattern s with
  | Some rest => rest
  | None =>
      match s with
      | EmptyString => EmptyString
      | String c rest => String c (removeFirst rest pattern)
      end
  end.

(** [pattern] occurs somewhere in [s]. *)
Fixpoint occursIn (pattern s : string) : bool :=
  match stripPrefix pattern s with
  | Some _ => true
  | None =>
      match s with
      | EmptyString => false
      | String _ rest => occursIn pattern rest
      end
  end.

(** [listWalletFiles] and [listNetworkFiles], on the entries [readdirSync]
    returns for the directory. *)
Definition listWalletFiles (entries : list string) : list string :=
  map (fun file => removeFirst file ".json")
      (filter (fun file => endsWith file ".json") entries).

Definition listNetworkFiles (entries : list string) : list string :=
  map (fun file => removeFirst file ".json")
      (filter (fun file => endsWith file ".json") entries).

(** ** services/vault.ts: queries *)

Record AssetBalance := mkAssetBalance {
  balance_assetId : string;
  balance_amount : string
}.

(** The balance queries of the SDK. *)
Record Queries := mkQueries {
  (** [vault.getBalance(assetId)], printed with [toString] *)
  vault_getBalance : Vault -> string -> Result string;
  (** [vault.getBalances()]: its [balances], amounts printed with
      [toString] *)
  vault_getBalances : Vault -> Result (list AssetBalance)
}.

Record VaultInfo := mkVaultInfo {
  info_address : string;
  info_signers : list string;
  info_signaturesRequired : Z;
  info_balance : string;
  info_version : string
}.

Definition getVaultInfo (env : Env) (q : Queries) (cfg : VaultConfig)
  : Result VaultInfo :=
  match createVaultInstance env cfg with
  | Throw e => Throw e
  | Ok vault =>
      let balance :=
        match vault_getBalance q vault (ETH (assets (network cfg))) with
        | Ok balanceResult => balanceResult
        | Throw _ => "0"
        end in
      Ok {| info_address := vault_address env vault;
            info_signers := SIGNERS (config (wallet cfg));
            info_signaturesRequired := SIGNATURES_COUNT (config (wallet cfg));
            info_balance := balance;
            info_version := version (wallet cfg) |}
  end.

Definition getVaultBalances (env : Env) (q : Queries) (cfg : VaultConfig)
  : Result (list AssetBalance) :=
  match createVaultInstance env cfg with
  | Throw e => Throw e
  | Ok vault =>
      match vault_getBalances q vault with
      | Ok found => Ok found
      | Throw _ => Ok []
      end
  end.

(** ** commands/wallet-info.ts, commands/balances.ts: asset labels *)

(** [s.slice(0, 10)], for the hexadecimal ids and versions it is applied
    to. *)
Definition slice10 (s : string) : string := substring 0 10 s.

(** The label printed for an asset: [ETH], [USDC], or the first ten
    characters of its id followed by dots. *)
Definition assetLabel (net : NetworkConfig) (asset : string) : string :=
  if String.eqb asset (ETH (assets net)) then "ETH"
  else match USDC (assets net) with
       | Some usdc => if String.eqb asset usdc then "USDC" else slice10 asset ++ "..."
       | None => slice10 asset ++ "..."
       end.

Definition labelled (net : NetworkConfig) (found : list AssetBalance)
  : list (string * string) :=
  map (fun b => (assetLabel net (balance_assetId b), balance_amount b)) found.

(** ** commands/wallet-info.ts *)

Record WalletReport := mkWalletReport {
  shown_address : string;
  shown_network : string;
  shown_url : string;
  shown_version : string;
  shown_signers : list string;
  shown_required : Z;
  shown_balances : list (string * string)
}.

Inductive WalletInfoOutcome :=
| WalletNameRequired
| NetworkNameRequired
| WalletShown (report : WalletReport)
| WalletInfoFailed (message : string).

Definition walletInfo (env : Env) (q : Queries) (walletName networkName : JsString)
  : WalletInfoOutcome :=
  if negb (truthy walletName) then WalletNameRequired
  else if negb (truthy networkName) then NetworkNameRequired
  else
    match loadWalletConfig env (or_else walletName EmptyString) with
    | Throw e => WalletInfoFailed e
    | Ok walletConfig =>
        match loadNetworkConfig env (or_else networkName EmptyString) with
        | Throw e => WalletInfoFailed e
        | Ok networkConfig =>
            let cfg := {| wallet := walletConfig; network := networkConfig |} in
            match getVaultInfo env q cfg with
            | Throw e => WalletInfoFailed e
            | Ok info =>
                match getVaultBalances env q cfg with
                | Throw e => WalletInfoFailed e
                | Ok found =>
                    WalletShown
                      {| shown_address := info_address info;
                         shown_network := or_else networkName EmptyString;
                         shown_url := url networkConfig;
                         shown_version := info_version info;
                         shown_signers := validSigners (info_signers info);
                         shown_required := info_signaturesRequired info;
                         shown_balances := labelled networkConfig found |}
                end
            end
        end
    end.

(** ** commands/list-wallets.ts *)

Inductive WalletLine :=
| WalletListed (name : string) (signers : nat) (required : Z) (versionStart : string)
| WalletInvalid (name : string).

Inductive ListWalletsOutcome :=
| NoWalletsFound
| WalletsListed (lines : list WalletLine) (total : nat).

Definition walletLine (env : Env) (name : string) : WalletLine :=
  match loadWalletConfig env name with
  | Ok cfg =>
      WalletListed name (length (validSigners (SIGNERS (config cfg))))
        (SIGNATURES_COUNT (config cfg)) (slice10 (version cfg))
  | Throw _ => WalletInvalid name
  end.

Definition listWallets (env : Env) (entries : list string) : ListWalletsOutcome :=
  let wallets := listWalletFiles entries in
  match wallets with
  | [] => NoWalletsFound
  | _ => WalletsListed (map (walletLine env) wallets) (length wallets)
  end.

(** ** commands/list-networks.ts *)

Inductive NetworkLine :=
| NetworkListed (name url : string) (explorer : JsString) (ethStart : string)
    (usdcStart : JsString)
| NetworkInvalid (name : string).

Inductive ListNetworksOutcome :=
| NoNetworksFound
| NetworksListed (lines : list NetworkLine) (total : nat).

Definition networkLine (env : Env) (name : string) : NetworkLine :=
  match loadNetworkConfig env name with
  | Ok cfg =>
      NetworkListed name (url cfg)
        (if truthy (explorerUrl cfg) then explorerUrl cfg else None)
        (slice10 (ETH (assets cfg)))
        (if truthy (USDC (assets cfg))
         then Some (slice10 (or_else (USDC (assets cfg)) EmptyString))
         else None)
  | Throw _ => NetworkInvalid name
  end.

Definition listNetworks (env : Env) (entries : list string) : ListNetworksOutcome :=
  let networks := listNetworkFiles entries in
  match networks with
  | [] => NoNetworksFound
  | _ => NetworksListed (map (networkLine env) networks) (length networks)
  end.

(** ** commands/balances.ts *)

Inductive BalanceLine :=
| BalancesShown (networkName : string) (found : list (string * string))
| BalanceError (networkName message : string).

Inductive BalancesOutcome :=
| NoWalletsConfigured
| NoNetworksConfigured
| BalancesReport (sections : list (string * list BalanceLine)).

(** The body of the loop over the networks, with its [try]/[catch]. *)
Definition networkSection (env : Env) (q : Queries) (walletConfig : WalletConfig)
    (networkName : string) : BalanceLine :=
  match loadNetworkConfig env networkName with
  | Throw e => BalanceError networkName e
  | Ok networkConfig =>
      match getVaultBalances env q {| wallet := walletConfig; network := networkConfig |} with
      | Throw e => BalanceError networkName e
      | Ok balanceList => BalancesShown networkName (labelled networkConfig balanceList)
      end
  end.

(** The loop over the wallets: [loadWalletConfig] is called outside any
    [try], so its throw ends the command. *)
Fixpoint walletSections (env : Env) (q : Queries) (networks wallets : list string)
  : Result (list (string * list BalanceLine)) :=
  match wallets with
  | [] => Ok []
  | walletName :: rest =>
      match loadWalletConfig env walletName with
      | Throw e => Throw e
      | Ok walletConfig =>
          match walletSections env q networks rest with
          | Throw e => Throw e
          | Ok more =>
              Ok ((walletName, map (networkSection env q walletConfig) networks) :: more)
          end
      end
  end.

Definition balances (env : Env) (q : Queries)
    (walletEntries networkEntries : list string) : Result BalancesOutcome :=
  let wallets := listWalletFiles walletEntries in
  let networks := listNetworkFiles networkEntries in
  match wallets with
  | [] => Ok NoWalletsConfigured
  | _ =>
      match networks with
      | [] => Ok NoNetworksConfigured
      | _ =>
          match walletSections env q networks wallets with
          | Throw e => Throw e
          | Ok sections => Ok (BalancesReport sections)
          end
      end
  end.

(** ** More concrete inputs *)

(** The entries of a wallets directory. *)
Definition demo_entries : list string :=
  ["duo.json"; "notes.txt"; "old.json.bak.json"].

(** Balance queries that succeed. *)
Definition demo_queries : Queries :=
  {| vault_getBalance := fun _ _ => Ok "1000";
     vault_getBalances := fun _ =>
       Ok [{| balance_assetId := "0xeth"; balance_amount := "1000" |}] |}.

(** Balance queries that fail. *)
Definition failing_queries : Queries :=
  {| vault_getBalance := fun _ _ => Throw "fetch failed";
     vault_getBalances := fun _ => Throw "fetch failed" |}.

(** The wallet a line of [listWallets] is about, and whether the line
    is sound: a listed wallet shows a threshold between 1 and the number of
    signers shown. *)
Definition walletLineName (line : WalletLine) : string :=
  match line with
  | WalletListed name _ _ _ => name
  | WalletInvalid name => name
  end.

Definition walletLineSound (env : Env) (line : WalletLine) : Prop :=
  match line with
  | WalletListed name shownSigners shownRequired _ =>
      is_ok (loadWalletConfig env name) = true /\
      1 <= shownRequired <= Z.of_nat shownSigners
  | WalletInvalid name => is_ok (loadWalletConfig env name) = false
  end.

(** The network a line of [balances] is about. *)
Definition balanceLineNetwork (line : BalanceLine) : string :=
  match line with
  | BalancesShown networkName _ => networkName
  | BalanceError networkName _ => networkName
  end.

(** [create-tx -w duo -n testnet -t 0xdead -a 0.001] *)
Definition demo_create_options : CreateTxOptions :=
  {| opt_wallet := Some "duo";
     opt_network := Some "testnet";
     opt_to := Some "0xdead";
     opt_amount := Some "0.001";
     opt_asset := None;
     opt_file := None |}.

(** Nothing pending, nothing sent. *)
Definition no_pending : World := {| pending_file := None; sent := [] |}.

(** The environment with a transaction file that does not parse. *)
Definition bad_file_env : Env :=
  let env := demo_env "n" in
  {| wallet_files := wallet_files env;
     network_files := network_files env;
     tx_files := fun _ => BadJson "Unexpected end of JSON input";
     clock := clock env;
     Wallet_fromPrivateKey := Wallet_fromPrivateKey env;
     wallet_signMessage := wallet_signMessage env;
     new_Vault := new_Vault env;
     vault_address := vault_address env;
     vault_transaction := vault_transaction env;
     vault_encodeSignature := vault_encodeSignature env;
     vault_send := vault_send env;
     response_waitForResult := response_waitForResult env |}.

(** [create-tx -w duo -n testnet -f tx.json] *)
Definition file_create_options : CreateTxOptions :=
  {| opt_wallet := Some "duo";
     opt_network := Some "testnet";
     opt_to := None;
     opt_amount := None;
     opt_asset := None;
     opt_file := Some "tx.json" |}.

(** The environment in which no private key is accepted. *)
Definition bad_key_env : Env :=
  let env := demo_env "n" in
  {| wallet_files := wallet_files env;
     network_files := network_files env;
     tx_files := tx_files env;
     clock := clock env;
     Wallet_fromPrivateKey := fun _ => Throw "Invalid private key";
     wallet_signMessage := wallet_signMessage env;
     new_Vault := new_Vault env;
     vault_address := vault_address env;
     vault_transaction := vault_transaction env;
     vault_encodeSignature := vault_encodeSignature env;
     vault_send := vault_send env;
     response_waitForResult := response_waitForResult env |}.

(** A 2-of-2 transaction holding both signatures as objects. *)
Definition duo_signed_by_both : PendingTransaction :=
  demo_pending "duo" 2
    [SigObject {| signer := alice; signature := "sig-a11ce-n" |};
     SigObject {| signer := bob; signature := "sig-b0b-n" |}].



(** The signature the signing call returns for [alice], and the run of
    [sign] that makes it, declining to send. *)
Definition alice_signed : Signature :=
  {| signer := alice; signature := "sig-a11ce-n" |}.

Definition alice_signs : SignCall := sign_call (demo_env "n") "a11ce" false.

Definition bob_signed : Signature :=
  {| signer := bob; signature := "sig-b0b-n" |}.

(** [alice], then [bob]: two runs that decline to send. *)
Definition alice_then_bob : list SignCall :=
  [sign_call (demo_env "n") "a11ce" false; sign_call (demo_env "n") "b0b" false].

(** A 2-of-2 transaction on which [sign] stored the signature of
    [alice]. *)
Definition duo_holding_alice : PendingTransaction :=
  demo_pending "duo" 2 [SigText alice_signed].

(** The configuration the commands build for the wallet [duo] on
    [testnet]. *)
Definition duo_config : VaultConfig :=
  {| wallet := {| wallet_name := "duo";
                  config := {| SIGNATURES_COUNT := 2;
                               SIGNERS := [alice; bob];
                               HASH_PREDICATE := None |};
                  version := "0xversion" |};
     network := {| network_name := "testnet";
                   url := "https://testnet.fuel.network/v1/graphql";
                   assets := {| ETH := "0xeth"; USDC := None |};
                   explorerUrl := None |} |}.

(** The vault built for that configuration. *)
Definition duo_vault : Vault :=
  {| provider_url := "https://testnet.fuel.network/v1/graphql";
     vault_SIGNATURES_COUNT := 2;
     vault_SIGNERS := [alice; bob];
     vault_HASH_PREDICATE := None;
     vault_version := "0xversion" |}.

(** ** Comparing pending transactions *)

(** Two pending transactions that differ at most in their signatures. *)
Definition sameButSignatures (a b : PendingTransaction) : Prop :=
  with_signatures a (signatures b) = b.

(** * Properties *)

(** ** Proof support *)

Ltac unfold_cmd :=
  unfold world_after, outcome_of, bind, lift, ret, try_catch,
    loadPendingTransaction, savePendingTransaction, deletePendingTransaction,
    vaultSend, hasPendingTransaction in *.

(** ** What [sendTransaction] does to the world *)

(** Every path of [sendTransaction]: either it throws with the pending file
    untouched, or all SDK calls succeeded, one transaction carrying exactly
    the encoded [sigs] was handed to [vault.send], and the pending file is
    gone. *)
Lemma sendTransaction_cases (env : Env) (cfg : VaultConfig)
    (sigs : list SigEntry) (w : World) :
  (exists e w',
      sendTransaction env cfg sigs w = (w', Throw e) /\
      pending_file w' = pending_file w /\
      (sent w' = sent w \/
       exists vault (built : Tx * string) encoded,
         createVaultInstance env cfg = Ok vault /\
         encodeWitnesses env vault sigs = Ok encoded /\
         sent w' = (sent w ++ [{| tx_request := tx_request (fst built);
                                  witnesses := encoded |}])%list))
  \/
  (exists vault pending (built : Tx * string) encoded response result_status,
      createVaultInstance env cfg = Ok vault /\
      pending_file w = Some pending /\
      encodeWitnesses env vault sigs = Ok encoded /\
      vault_send env vault {| tx_request := tx_request (fst built);
                              witnesses := encoded |} = Ok response /\
      response_waitForResult env response = Ok result_status /\
      sendTransaction env cfg sigs w =
        ({| pending_file := None;
            sent := (sent w ++ [{| tx_request := tx_request (fst built);
                                   witnesses := encoded |}])%list |},
         Ok {| transactionId := response_id response;
               status := or_else result_status "success" |})).
Proof.
  unfold sendTransaction. unfold_cmd.
  destruct (createVaultInstance env cfg) as [vault|e] eqn:Hv.
  2:{ left. exists e, w. auto. }
  destruct (pending_file w) as [pending|] eqn:Hp.
  2:{ left. eexists _, w. rewrite Hp. auto. }
  destruct (vault_transaction env vault _ _ _) as [built|e] eqn:Hb.
  2:{ left. exists e, w. auto. }
  destruct (encodeWitnesses env vault sigs) as [encoded|e] eqn:He.
  2:{ left. exists e, w. auto. }
  destruct (vault_send env vault _) as [response|e] eqn:Hs.
  2:{ left. eexists e, _. split; [reflexivity|]. cbn. split; [auto|].
      right. exists vault, built, encoded. auto. }
  destruct (response_waitForResult env response) as [st|e] eqn:Hr.
  2:{ left. eexists e, _. split; [reflexivity|]. cbn. split; [auto|].
      right. exists vault, built, encoded. auto. }
  right. exists vault, pending, built, encoded, response, st.
  cbn. rewrite Hp. cbn. auto 10.
Qed.

(** ** C1: the pending file is deleted only after a confirmed submission *)

Arguments sendTransaction : simpl never.
Arguments createTransaction : simpl never.

(** The [sendTx] command changes the pending file only by submitting. *)
Lemma sendTx_cases (env : Env) (options : SendTxOptions) (confirm_send : bool)
    (w : World) :
  (exists outcome w',
      sendTx env options confirm_send w = (w', Ok outcome) /\
      (forall result, outcome <> Submitted result) /\
      pending_file w' = pending_file w)
  \/
  (exists result pending walletConfig networkConfig,
      pending_file w = Some pending /\
      loadWalletConfig env (walletName pending) = Ok walletConfig /\
      loadNetworkConfig env (or_else (send_network options) (networkName pending))
        = Ok networkConfig /\
      sendTransaction env {| wallet := walletConfig; network := networkConfig |}
        (signatures pending) w = (fst (sendTx env options confirm_send w), Ok result) /\
      sendTx env options confirm_send w
        = (fst (sendTx env options confirm_send w), Ok (Submitted result))).
Proof.
  assert (Hkept : forall o w0,
             (forall result, o <> Submitted result) ->
             pending_file w0 = pending_file w ->
             (exists outcome w',
                 (w0, Ok o) = (w', Ok outcome) /\
                 (forall result, outcome <> Submitted result) /\
                 pending_file w' = pending_file w)).
  { intros o w0 Ho Hw0. exists o, w0. auto. }
  unfold sendTx. unfold_cmd.
  destruct (pending_file w) as [pending|] eqn:Hp; cbn.
  2:{ left. apply Hkept; [discriminate|auto]. }
  destruct (uniqueCount (signatures pending) <? requiredSignatures pending).
  { left. apply Hkept; [discriminate|auto]. }
  destruct confirm_send; cbn.
  2:{ left. apply Hkept; [discriminate|auto]. }
  destruct (loadWalletConfig env (walletName pending)) as [wc|e] eqn:Hw.
  2:{ left. apply Hkept; [discriminate|auto]. }
  destruct (loadNetworkConfig env _) as [nc|e] eqn:Hn.
  2:{ left. apply Hkept; [discriminate|auto]. }
  destruct (sendTransaction_cases env {| wallet := wc; network := nc |}
              (signatures pending) w)
    as [(e & w' & Hs & Hkeep & _)
       |(v & p & b & enc & r & st & _ & _ & _ & _ & _ & Hs)].
  - left. rewrite Hs. apply Hkept; [discriminate|]. rewrite Hkeep. auto.
  - right. rewrite Hs. cbn. eexists _, pending, wc, nc.
    repeat split; try assumption; try reflexivity.
Qed.

(** C1. A send that fails, at whatever point (building the vault, loading
    or rebuilding the transaction, encoding, [vault.send], waiting for the
    result), leaves the pending file as it was, signatures included; the
    file is deleted only when [vault.send] and [waitForResult] both
    succeeded. This holds for [sendTransaction] and for the [sendTx]
    command built on it. *)
Theorem C1_delete_only_after_confirmed_send (env : Env) (w : World) :
  (forall cfg sigs,
      match outcome_of (sendTransaction env cfg sigs) w with
      | Throw _ =>
          pending_file (world_after (sendTransaction env cfg sigs) w)
            = pending_file w
      | Ok result =>
          pending_file (world_after (sendTransaction env cfg sigs) w) = None /\
          exists vault tx response result_status,
            createVaultInstance env cfg = Ok vault /\
            vault_send env vault tx = Ok response /\
            response_waitForResult env response = Ok result_status /\
            transactionId result = response_id response /\
            sent (world_after (sendTransaction env cfg sigs) w)
              = (sent w ++ [tx])%list
      end)
  /\
  (forall options confirm_send,
      match outcome_of (sendTx env options confirm_send) w with
      | Ok (Submitted _) =>
          pending_file (world_after (sendTx env options confirm_send) w) = None
      | _ =>
          pending_file (world_after (sendTx env options confirm_send) w)
            = pending_file w
      end).
Proof.
  split.
  - intros cfg sigs. unfold outcome_of, world_after.
    destruct (sendTransaction_cases env cfg sigs w)
      as [(e & w' & Hs & Hkeep & _)
         |(v & p & b & enc & r & st & Hv & _ & _ & Hsend & Hwait & Hs)];
      rewrite Hs; cbn.
    + exact Hkeep.
    + split; [reflexivity|]. eexists v, _, r, st.
      repeat split; [exact Hv | exact Hsend | exact Hwait].
  - intros options confirm_send. unfold outcome_of, world_after.
    destruct (sendTx_cases env options confirm_send w)
      as [(o & w' & Hs & Hno & Hkeep)
         |(result & p & wc & nc & Hp & _ & _ & Hst & Hs)].
    + rewrite Hs. cbn. destruct o; auto. exfalso. eapply Hno. reflexivity.
    + rewrite Hs. cbn.
      destruct (sendTransaction_cases env {| wallet := wc; network := nc |}
                  (signatures p) w)
        as [(e & w' & Hs' & _)
           |(v & p' & b & enc & r & st & _ & _ & _ & _ & _ & Hs')];
        rewrite Hs' in Hst; inversion Hst as [[Hw Hr]].
      reflexivity.
Qed.

(** A send that fails at the node keeps the pending transaction; the same
    command run again with the node reachable submits it and deletes it. *)
Example send_retry_after_failure :
  sendTx (offline_env "n") no_flags true (world_with solo_signed)
    = ({| pending_file := Some solo_signed;
          sent := [demo_tx ["0xa11ce:sig-a11ce-n"]] |},
       Ok (SendFailed "fetch failed"))
  /\ sendTx (demo_env "n") no_flags true
       {| pending_file := Some solo_signed;
          sent := [demo_tx ["0xa11ce:sig-a11ce-n"]] |}
     = ({| pending_file := None;
           sent := [demo_tx ["0xa11ce:sig-a11ce-n"];
                    demo_tx ["0xa11ce:sig-a11ce-n"]] |},
        Ok (Submitted {| transactionId := "0xtx"; status := "success" |})).
Proof. split; reflexivity. Qed.

(** ** C4: sending below the threshold *)

(** On entries stored as objects, the count of [sendTx] is the number of
    distinct signer addresses. *)
Lemma uniqueCount_objects (sigs : list Signature) :
  uniqueCount (map SigObject sigs) = Z.of_nat (length (distinctSigners sigs)).
Proof.
  unfold uniqueCount, distinctSigners. f_equal.
  rewrite map_map. cbn [entry_signer].
  induction sigs as [|sig rest IH]; [reflexivity|].
  cbn [map nodup].
  match goal with
  | |- context [in_dec JsString_eq_dec ?a ?l] =>
      destruct (in_dec JsString_eq_dec a l) as [Hin|Hout]
  end;
    destruct (in_dec string_dec (signer sig) (map signer rest)) as [Hin'|Hout'].
  - exact IH.
  - exfalso. apply Hout'. apply in_map_iff in Hin as (x & Hx & Hin).
    inversion Hx as [Hs]. apply in_map_iff. exists x. auto.
  - exfalso. apply Hout. apply in_map_iff in Hin' as (x & Hx & Hin').
    apply in_map_iff. exists x. split; [f_equal; exact Hx|exact Hin'].
  - cbn [length]. f_equal. exact IH.
Qed.

(** The entries [sign] writes are strings; [sendTx] reads no [signer] off
    them, so together they count as one. *)
Example uniqueCount_of_signed_texts :
  uniqueCount [SigText alice_first;
               SigText {| signer := bob; signature := "sig-b0b-n1" |}] = 1.
Proof. reflexivity. Qed.




(** ** C8: deleting the pending transaction *)

(** C8. [deletePendingTransaction] never throws; on a world without a
    pending file it changes nothing, and after it [hasPendingTransaction]
    is false whatever was stored. *)
Theorem C8_delete_is_total_and_empties (w : World) :
  outcome_of deletePendingTransaction w = Ok tt
  /\ hasPendingTransaction (world_after deletePendingTransaction w) = false
  /\ sent (world_after deletePendingTransaction w) = sent w
  /\ (forall log,
        deletePendingTransaction {| pending_file := None; sent := log |}
          = ({| pending_file := None; sent := log |}, Ok tt)).
Proof.
  unfold outcome_of, world_after, deletePendingTransaction, hasPendingTransaction.
  destruct w as [[p|] log]; cbn; auto.
Qed.

(** ** Witnesses are built from the list given, one per element *)

Lemma encodeWitnesses_length (env : Env) (vault : Vault)
    (sigs : list SigEntry) (encoded : list string) :
  encodeWitnesses env vault sigs = Ok encoded ->
  length encoded = length sigs.
Proof.
  revert encoded. induction sigs as [|sig rest IH]; intros encoded H; cbn in H.
  - inversion H. reflexivity.
  - destruct (vault_encodeSignature env vault _ _); [|discriminate].
    destruct (encodeWitnesses env vault rest); [|discriminate].
    inversion H. cbn. f_equal. apply IH. reflexivity.
Qed.

(** ** C9: [sendTx] and the [-s]/[-S] flags *)

(** C9. The [sendTx] command never reads the [signer] and [signature]
    options: two invocations that differ only in them behave alike, and
    whenever the command hands a transaction to [vault.send], its witnesses
    are the encoding of the signatures stored in the pending transaction,
    one per stored entry and in stored order. *)
Theorem C9_sendTx_ignores_signer_flags (env : Env) (confirm_send : bool)
    (w : World) :
  (forall net s1 g1 s2 g2,
      sendTx env {| send_network := net; send_signer := s1; send_signature := g1 |}
        confirm_send w
      = sendTx env {| send_network := net; send_signer := s2; send_signature := g2 |}
          confirm_send w)
  /\
  (forall options,
      sent (world_after (sendTx env options confirm_send) w) = sent w
      \/ exists pending vault request encoded,
           pending_file w = Some pending /\
           encodeWitnesses env vault (signatures pending) = Ok encoded /\
           length encoded = length (signatures pending) /\
           sent (world_after (sendTx env options confirm_send) w)
             = (sent w ++ [{| tx_request := request; witnesses := encoded |}])%list).
Proof.
  split; [reflexivity|].
  intros options. unfold world_after, sendTx. unfold_cmd.
  destruct (pending_file w) as [pending|] eqn:Hp; cbn; [|auto].
  destruct (uniqueCount (signatures pending) <? requiredSignatures pending);
    [auto|].
  destruct confirm_send; cbn; [|auto].
  destruct (loadWalletConfig env (walletName pending)) as [wc|e]; [|auto].
  destruct (loadNetworkConfig env _) as [nc|e]; [|auto].
  destruct (sendTransaction_cases env {| wallet := wc; network := nc |}
              (signatures pending) w)
    as [(e & w' & Hs & _ & [Hlog|(v & b & enc & _ & Henc & Hlog)])
       |(v & p & b & enc & r & st & _ & _ & Henc & _ & _ & Hs)];
    rewrite Hs; cbn.
  - auto.
  - right. exists pending, v, (tx_request (fst b)), enc.
    rewrite (encodeWitnesses_length _ _ _ _ Henc). auto.
  - right. exists pending, v, (tx_request (fst b)), enc.
    rewrite (encodeWitnesses_length _ _ _ _ Henc). auto.
Qed.

(** ** C7: creating while a transaction is pending *)

(** [createTransaction] either throws before writing, or stores a
    transaction with no signatures. *)
Lemma createTransaction_cases (env : Env) (cfg : VaultConfig)
    (input : TransactionInput) (w : World) :
  (exists e, createTransaction env cfg input w = (w, Throw e))
  \/
  (exists fresh result,
      createTransaction env cfg input w
        = ({| pending_file := Some fresh; sent := sent w |}, Ok result) /\
      signatures fresh = [] /\
      transaction fresh = input /\
      requiredSignatures fresh = SIGNATURES_COUNT (config (wallet cfg)) /\
      signersRequired result = requiredSignatures fresh).
Proof.
  unfold createTransaction. unfold_cmd.
  destruct (createVaultInstance env cfg) as [vault|e]; [|left; eauto].
  destruct (vault_transaction env vault _ _ _) as [built|e]; [|left; eauto].
  right. eexists _, _. split; [reflexivity|]. cbn. auto.
Qed.

Lemma readTxInput_refusal (env : Env) (options : CreateTxOptions)
    (refused : CreateTxOutcome) :
  readTxInput env options = Ok (inl refused) ->
  forall result, refused <> Created result.
Proof.
  unfold readTxInput. intros H result.
  destruct (truthy (opt_file options)).
  - destruct (tx_files env _); inversion H; discriminate.
  - destruct (truthy (opt_to options) && truthy (opt_amount options));
      inversion H; discriminate.
Qed.

(** The part of [createTx] that follows the replace prompt either leaves
    the pending file alone or stores a transaction with no signatures. *)
Lemma createTx_new_cases (env : Env) (options : CreateTxOptions) (w : World) :
  (pending_file (world_after (createTx_new env options) w) = pending_file w /\
   forall result, outcome_of (createTx_new env options) w <> Ok (Created result))
  \/
  (exists fresh result,
      createTx_new env options w
        = ({| pending_file := Some fresh; sent := sent w |}, Ok (Created result)) /\
      signatures fresh = [] /\
      signersRequired result = requiredSignatures fresh).
Proof.
  unfold createTx_new, world_after, outcome_of.
  destruct (negb (truthy (opt_wallet options))); [left; cbn; split; [auto|discriminate]|].
  destruct (negb (truthy (opt_network options))); [left; cbn; split; [auto|discriminate]|].
  unfold_cmd.
  destruct (readTxInput env options) as [[refused|txInput]|e] eqn:Hin; cbn.
  - left. split; [auto|].
    intros result H. inversion H as [Hr].
    exact (readTxInput_refusal env options refused Hin result Hr).
  - destruct (loadWalletConfig env _) as [wc|e]; [|left; cbn; split; [auto|discriminate]].
    destruct (loadNetworkConfig env _) as [nc|e]; [|left; cbn; split; [auto|discriminate]].
    destruct (createTransaction_cases env {| wallet := wc; network := nc |} txInput w)
      as [(e & Hc)|(fresh & result & Hc & Hsig & _ & _ & Hreq)]; rewrite Hc; cbn.
    + left. split; [auto|discriminate].
    + right. exists fresh, result. auto.
  - left. split; [auto|discriminate].
Qed.

(** C7. With a transaction pending and the replace prompt declined,
    [createTx] reports [Conflict] and leaves the world as it was. With the
    prompt accepted, the old transaction is deleted first: the command
    continues exactly as it would from an empty slot. When it then reports
    a creation, a new transaction is stored whose signature list is empty;
    with any other outcome the slot is empty. And it does report a creation
    whenever the options give wallet, network and transaction, both
    configurations load, and the vault and the transaction can be built:
    the stored transaction is then the one built from them, with no
    signatures, the old one leaving nothing behind. *)
Theorem C7_create_conflict_or_replace (env : Env) (options : CreateTxOptions)
    (existing : PendingTransaction) (log : list Tx) :
  createTx env options false {| pending_file := Some existing; sent := log |}
    = ({| pending_file := Some existing; sent := log |}, Ok (Conflict existing))
  /\
  createTx env options true {| pending_file := Some existing; sent := log |}
    = createTx_new env options {| pending_file := None; sent := log |}
  /\
  match outcome_of (createTx env options true)
          {| pending_file := Some existing; sent := log |} with
  | Ok (Created result) =>
      exists fresh,
        world_after (createTx env options true)
          {| pending_file := Some existing; sent := log |}
        = {| pending_file := Some fresh; sent := log |} /\
        signatures fresh = [] /\
        signersRequired result = requiredSignatures fresh
  | _ =>
      pending_file (world_after (createTx env options true)
                      {| pending_file := Some existing; sent := log |}) = None
  end
  /\
  (forall input walletConfig networkConfig vault built,
      truthy (opt_wallet options) = true ->
      truthy (opt_network options) = true ->
      readTxInput env options = Ok (inr input) ->
      loadWalletConfig env (or_else (opt_wallet options) EmptyString)
        = Ok walletConfig ->
      loadNetworkConfig env (or_else (opt_network options) EmptyString)
        = Ok networkConfig ->
      createVaultInstance env {| wallet := walletConfig; network := networkConfig |}
        = Ok vault ->
      vault_transaction env vault
        (or_else (assetId input) (ETH (assets networkConfig)))
        (amount input) (to input) = Ok built ->
      createTx env options true {| pending_file := Some existing; sent := log |}
      = ({| pending_file :=
              Some {| walletName := wallet_name walletConfig;
                      networkName := network_name networkConfig;
                      hashTxId := snd built;
                      encodedTxId := snd built;
                      txRequest := tx_request (fst built);
                      transaction := input;
                      createdAt := clock env;
                      signatures := [];
                      requiredSignatures := SIGNATURES_COUNT (config walletConfig) |};
            sent := log |},
         Ok (Created {| created_hashTxId := snd built;
                        vaultAddress := vault_address env vault;
                        signersRequired := SIGNATURES_COUNT (config walletConfig) |}))).
Proof.
  assert (Hreplace :
            createTx env options true {| pending_file := Some existing; sent := log |}
            = createTx_new env options {| pending_file := None; sent := log |})
    by reflexivity.
  split; [reflexivity|]. split; [exact Hreplace|]. split.
  - unfold world_after, outcome_of. rewrite Hreplace.
    destruct (createTx_new_cases env options {| pending_file := None; sent := log |})
      as [[Hkeep Hno]|(fresh & result & Hc & Hsig & Hreq)].
    + unfold world_after, outcome_of in Hkeep, Hno.
      destruct (createTx_new env options {| pending_file := None; sent := log |})
        as [w' [outcome|e]]; cbn in *; [|exact Hkeep].
      destruct outcome; try exact Hkeep.
      exfalso. eapply Hno. reflexivity.
    + rewrite Hc. cbn. exists fresh. auto.
  - intros input wc nc vault built Hw Hn Hin Hlw Hln Hv Hb.
    rewrite Hreplace. unfold createTx_new. rewrite Hw, Hn. cbn [negb].
    unfold_cmd. rewrite Hin, Hlw, Hln.
    unfold createTransaction. unfold_cmd. rewrite Hv. cbn. rewrite Hb. reflexivity.
Qed.

(** C7 on a pending 2-of-2 transaction that holds a signature, replaced
    by a new one for the same wallet. *)
Lemma C7_witness :
  truthy (opt_wallet demo_create_options) = true
  /\ truthy (opt_network demo_create_options) = true
  /\ loadWalletConfig (demo_env "n") "duo" = Ok (wallet duo_config)
  /\ loadNetworkConfig (demo_env "n") "testnet" = Ok (network duo_config)
  /\ createVaultInstance (demo_env "n") duo_config = Ok duo_vault
  /\ createTx (demo_env "n") demo_create_options true (world_with duo_signed_by_alice)
     = (world_with (demo_pending "duo" 2 []),
        Ok (Created {| created_hashTxId := "0xhash";
                       vaultAddress := "0xvault";
                       signersRequired := 2 |})).
Proof.
  do 5 (split; [reflexivity|]).
  apply (proj2 (proj2 (proj2 (C7_create_conflict_or_replace (demo_env "n")
                                 demo_create_options duo_signed_by_alice [])))
           {| to := "0xdead"; amount := "0.001"; assetId := None |}
           (wallet duo_config) (network duo_config) duo_vault
           (demo_tx [], "0xhash"));
    reflexivity.
Defined.

(** The form of the command in [SendTxCli] does read the flags: the
    signature given with [-s]/[-S] is the one submitted, and the stored
    signatures are not. *)
Example SendTxCli_submits_flag_signature :
  SendTxCli.sendTx (demo_env "n") bob_flags (fun _ => alice_first) true
    (world_with solo_signed)
  = ({| pending_file := None; sent := [demo_tx ["0xb0b:sig-b0b-n"]] |},
     Ok (Submitted {| transactionId := "0xtx"; status := "success" |})).
Proof. reflexivity. Qed.

(** ** C10: which wallet files [loadWalletConfig] accepts *)

(** C10. For a wallet file that exists and parses: [loadWalletConfig]
    throws whenever [SIGNATURES_COUNT] exceeds the number of signers left
    after the zero address is removed; and it accepts the file exactly when
    [SIGNATURES_COUNT] is at least 1, [SIGNERS] (zero addresses included) is
    not empty, the [version] field is present (defined and not empty, which
    is what the check tests) and that bound holds. *)
Theorem C10_wallet_config_acceptance (env : Env) (name : string)
    (raw : RawWalletConfig) :
  wallet_files env name = Json raw ->
  (countExceedsValidSigners raw -> is_ok (loadWalletConfig env name) = false)
  /\
  (is_ok (loadWalletConfig env name) = true <->
     countAtLeastOne raw /\
     configuredSigners raw <> [] /\
     truthy (raw_version raw) = true /\
     ~ countExceedsValidSigners raw).
Proof.
  intros Hfile.
  unfold loadWalletConfig, validateWalletConfig, countExceedsValidSigners,
    countAtLeastOne, configuredCount, configuredSigners.
  rewrite Hfile.
  destruct (raw_config raw) as [c|]; cbn.
  2:{ split; [auto|]. split; [discriminate|]. intros [[n [H _]] _]. discriminate. }
  destruct (raw_SIGNERS c) as [[|s0 rest]|]; cbn [is_ok].
  1,3: split; [auto|]; split; [discriminate|]; intros (_ & H & _); congruence.
  destruct (raw_SIGNATURES_COUNT c) as [count|]; cbn [is_ok].
  2:{ split; [auto|]. split; [discriminate|]. intros [[n [H _]] _]. discriminate. }
  destruct (count =? 0) eqn:H0; cbn [orb is_ok].
  { apply Z.eqb_eq in H0. split; [auto|]. split; [discriminate|].
    intros [[n [H Hn]] _]. inversion H. lia. }
  destruct (count <? 1) eqn:H1; cbn [is_ok].
  { apply Z.ltb_lt in H1. split; [auto|]. split; [discriminate|].
    intros [[n [H Hn]] _]. inversion H. lia. }
  apply Z.ltb_ge in H1.
  destruct (truthy (raw_version raw)) eqn:Hv; cbn [negb is_ok].
  2:{ split; [auto|]. split; [discriminate|]. intros (_ & _ & H & _). discriminate. }
  destruct (count >? Z.of_nat (length (validSigners (s0 :: rest)))) eqn:Hb;
    cbn [is_ok].
  - rewrite Z.gtb_ltb in Hb. apply Z.ltb_lt in Hb.
    split; [auto|]. split; [discriminate|].
    intros (_ & _ & _ & H). exfalso. apply H. exists count. split; [auto|lia].
  - rewrite Z.gtb_ltb in Hb. apply Z.ltb_ge in Hb. split.
    + intros [n [H Hn]]. inversion H. lia.
    + split; [|auto]. intros _. repeat split.
      * exists count. auto.
      * discriminate.
      * intros [n [H Hn]]. inversion H. lia.
Qed.

(** C10 on the 2-of-2 wallet file. *)
Lemma C10_witness :
  wallet_files (demo_env "n") "duo" = Json (demo_wallet "duo")
  /\ is_ok (loadWalletConfig (demo_env "n") "duo") = true.
Proof.
  split; [reflexivity|].
  apply (C10_wallet_config_acceptance (demo_env "n") "duo" (demo_wallet "duo")
           eq_refl).
  repeat split.
  - exists 2. split; [reflexivity|lia].
  - discriminate.
  - intros [n [H Hn]]. inversion H. subst n. vm_compute in Hn. discriminate.
Defined.

(** A zero address makes [SIGNERS] non-empty but does not count toward the
    bound: a 1-of-1 file whose signer is the zero address is rejected by the
    last check. *)
Example zero_address_does_not_count :
  validateWalletConfig "w" zero_only_wallet
    = Throw "SIGNATURES_COUNT cannot be greater than number of valid signers".
Proof. reflexivity. Qed.

(** ** What [sign] does to the world *)

Arguments sign : simpl never.

Lemma includes_In (entries : list SigEntry) (sig : Signature) :
  includes entries sig = true <-> In (SigText sig) entries.
Proof.
  unfold includes. rewrite existsb_exists. split.
  - intros [e [Hin He]]. destruct e as [s|s]; [discriminate|].
    unfold Signature_eqb in He. apply andb_true_iff in He as [H1 H2].
    apply String.eqb_eq in H1, H2. destruct s, sig; cbn in *. subst. exact Hin.
  - intros Hin. exists (SigText sig). split; [exact Hin|].
    unfold Signature_eqb. rewrite !String.eqb_refl. reflexivity.
Qed.

(** A run whose SDK calls fail reports the error and changes nothing. *)
Lemma sign_error (c : SignCall) (pending : PendingTransaction) (log : list Tx) :
  signedBy (hashTxId pending) c = None ->
  exists e,
    run_sign c {| pending_file := Some pending; sent := log |}
      = ({| pending_file := Some pending; sent := log |}, Ok (SignError e)).
Proof.
  unfold signedBy, run_sign, sign. unfold_cmd. cbn. intros H.
  destruct (Wallet_fromPrivateKey (call_env c) _) as [a|e]; [|eauto].
  destruct (wallet_signMessage (call_env c) _ _) as [b|e]; [discriminate|eauto].
Qed.

(** Below the threshold the signature is stored, unless the same text is
    there already; nothing else changes. *)
Lemma sign_below_threshold (c : SignCall) (pending : PendingTransaction)
    (log : list Tx) (sig : Signature) :
  signedBy (hashTxId pending) c = Some sig ->
  Z.of_nat (length (signatures pending)) + 1 < requiredSignatures pending ->
  run_sign c {| pending_file := Some pending; sent := log |}
    = ({| pending_file :=
            Some (if includes (signatures pending) sig then pending
                  else push_signature pending (SigText sig));
          sent := log |},
       Ok (NeedMore (reportOf pending sig))).
Proof.
  unfold signedBy, run_sign, sign. unfold_cmd. cbn. intros H Hlt.
  destruct (Wallet_fromPrivateKey (call_env c) _) as [a|e]; [|discriminate].
  destruct (wallet_signMessage (call_env c) _ _) as [b|e]; [|discriminate].
  inversion H; subst sig; clear H.
  assert (Hge : (Z.of_nat (length (signatures pending)) + 1
                   >=? requiredSignatures pending) = false).
  { rewrite Z.geb_leb. apply Z.leb_gt. exact Hlt. }
  rewrite Hge.
  destruct (includes (signatures pending) _); reflexivity.
Qed.

(** At the threshold nothing is stored: the pending file stays as it was
    unless the offered send went through, and what is sent carries the new
    signature alone. *)
Lemma sign_at_threshold (c : SignCall) (pending : PendingTransaction)
    (log : list Tx) (sig : Signature) :
  signedBy (hashTxId pending) c = Some sig ->
  requiredSignatures pending <= Z.of_nat (length (signatures pending)) + 1 ->
  exists w' step,
    run_sign c {| pending_file := Some pending; sent := log |}
      = (w', Ok (ThresholdReached (reportOf pending sig) step)) /\
    (sendNow (call_answers c) = false ->
       step = NotSentNow /\ w' = {| pending_file := Some pending; sent := log |}) /\
    match step with
    | Sent _ => pending_file w' = None
    | _ => pending_file w' = Some pending
    end /\
    (sent w' = log \/
     exists request encoded,
       sent w' = (log ++ [{| tx_request := request; witnesses := [encoded] |}])%list).
Proof.
  unfold signedBy, run_sign, sign. unfold_cmd. cbn. intros H Hle.
  destruct (Wallet_fromPrivateKey (call_env c) _) as [a|e]; [|discriminate].
  destruct (wallet_signMessage (call_env c) _ _) as [b|e]; [|discriminate].
  inversion H; subst sig; clear H.
  assert (Hge : (Z.of_nat (length (signatures pending)) + 1
                   >=? requiredSignatures pending) = true).
  { rewrite Z.geb_leb. apply Z.leb_le. exact Hle. }
  rewrite Hge.
  destruct (sendNow (call_answers c)).
  2:{ eexists _, _. split; [reflexivity|]. cbn. auto. }
  destruct (loadWalletConfig (call_env c) (walletName pending)) as [wc|e].
  2:{ eexists _, _. split; [reflexivity|]. cbn. repeat split; auto; discriminate. }
  destruct (loadNetworkConfig (call_env c) (networkName pending)) as [nc|e].
  2:{ eexists _, _. split; [reflexivity|]. cbn. repeat split; auto; discriminate. }
  set (w := {| pending_file := Some pending; sent := log |}).
  set (sig := {| signer := a; signature := b |}).
  destruct (sendTransaction_cases (call_env c) {| wallet := wc; network := nc |}
              [SigObject sig] w)
    as [(e & w' & Hs & Hkeep & Hlog)
       |(v & p & bt & enc & r & st & _ & _ & Henc & _ & _ & Hs)];
    rewrite Hs.
  - eexists _, _. split; [reflexivity|]. cbn.
    split; [discriminate|]. split; [exact Hkeep|].
    destruct Hlog as [Hlog|(v & bt & enc & _ & Henc & Hlog)]; [left; exact Hlog|].
    right. pose proof (encodeWitnesses_length _ _ _ _ Henc) as Hlen.
    destruct enc as [|x [|y more]]; try discriminate.
    exists (tx_request (fst bt)), x. exact Hlog.
  - eexists _, _. split; [reflexivity|]. cbn.
    split; [discriminate|]. split; [reflexivity|].
    right. pose proof (encodeWitnesses_length _ _ _ _ Henc) as Hlen.
    destruct enc as [|x [|y more]]; try discriminate.
    exists (tx_request (fst bt)), x. reflexivity.
Qed.

Lemma sign_no_pending (c : SignCall) (log : list Tx) :
  run_sign c {| pending_file := None; sent := log |}
    = ({| pending_file := None; sent := log |}, Ok SignNoPending).
Proof. reflexivity. Qed.

Lemma sign_each_no_pending (calls : list SignCall) (log : list Tx) :
  sign_each calls {| pending_file := None; sent := log |}
    = {| pending_file := None; sent := log |}.
Proof.
  induction calls as [|c rest IH]; [reflexivity|].
  cbn. unfold world_after. rewrite sign_no_pending. exact IH.
Qed.

(** One run of [sign] on a stored transaction: the file is deleted (the
    offered send went through), or kept as it was, or extended by the text
    of the new signature, which was not stored before. *)
Lemma sign_step (c : SignCall) (pending : PendingTransaction) (log : list Tx) :
  let w' := world_after (run_sign c) {| pending_file := Some pending; sent := log |} in
  pending_file w' = None
  \/ pending_file w' = Some pending
  \/ exists sig,
       signedBy (hashTxId pending) c = Some sig /\
       ~ In (SigText sig) (signatures pending) /\
       Z.of_nat (length (signatures pending)) + 1 < requiredSignatures pending /\
       w' = {| pending_file := Some (push_signature pending (SigText sig));
               sent := log |}.
Proof.
  cbv zeta. unfold world_after.
  destruct (signedBy (hashTxId pending) c) as [sig|] eqn:Hsig.
  2:{ destruct (sign_error c pending log Hsig) as [e He]. rewrite He. auto. }
  destruct (Z_lt_le_dec (Z.of_nat (length (signatures pending)) + 1)
              (requiredSignatures pending)) as [Hlt|Hle].
  - rewrite (sign_below_threshold c pending log sig Hsig Hlt). cbn.
    destruct (includes (signatures pending) sig) eqn:Hin; [auto|].
    right. right. exists sig. repeat split; auto.
    intros H. apply includes_In in H. congruence.
  - destruct (sign_at_threshold c pending log sig Hsig Hle)
      as (w' & step & Hrun & _ & Hfile & _).
    rewrite Hrun. cbn. destruct step; auto.
Qed.

(** ** Counting distinct elements *)

Lemma nodup_length_same_elements {A : Type} (dec : forall a b : A, {a = b} + {a <> b})
    (l1 l2 : list A) :
  (forall x, In x l1 <-> In x l2) ->
  length (nodup dec l1) = length (nodup dec l2).
Proof.
  intros H. apply Nat.le_antisymm; apply NoDup_incl_length;
    try apply NoDup_nodup; intros x Hx; apply nodup_In; apply nodup_In in Hx;
    apply H; exact Hx.
Qed.

Lemma includes_push (stored : list SigEntry) (sig other : Signature) :
  includes stored other = true ->
  includes (stored ++ [SigText sig]) other = true.
Proof.
  rewrite !includes_In. intros H. apply in_or_app. auto.
Qed.

Lemma includes_pushed (stored : list SigEntry) (sig : Signature) :
  includes (stored ++ [SigText sig]) sig = true.
Proof.
  apply includes_In. apply in_or_app. right. left. reflexivity.
Qed.

Lemma In_newEntries (stored : list SigEntry) (sigs : list Signature)
    (sig : Signature) :
  In sig (newEntries stored sigs) <-> In sig sigs /\ includes stored sig = false.
Proof.
  unfold newEntries. rewrite nodup_In, filter_In.
  rewrite negb_true_iff. reflexivity.
Qed.

Lemma newEntries_cons_le (stored : list SigEntry) (sig : Signature)
    (sigs : list Signature) :
  (length (newEntries stored sigs) <= length (newEntries stored (sig :: sigs)))%nat.
Proof.
  apply NoDup_incl_length; [apply NoDup_nodup|].
  intros x Hx. apply In_newEntries in Hx as [Hin Hnew].
  apply In_newEntries. split; [right; exact Hin|exact Hnew].
Qed.

Lemma newEntries_push_lt (stored : list SigEntry) (sig : Signature)
    (sigs : list Signature) :
  includes stored sig = false ->
  (S (length (newEntries (stored ++ [SigText sig]) sigs))
   <= length (newEntries stored (sig :: sigs)))%nat.
Proof.
  intros Hnew.
  change (S (length (newEntries (stored ++ [SigText sig]) sigs)))
    with (length (sig :: newEntries (stored ++ [SigText sig]) sigs)).
  apply NoDup_incl_length.
  - constructor; [|apply NoDup_nodup].
    intros Hin. apply In_newEntries in Hin as [_ Hin].
    rewrite includes_pushed in Hin. discriminate.
  - intros x [Hx|Hx]; apply In_newEntries.
    + subst x. split; [left; reflexivity|exact Hnew].
    + apply In_newEntries in Hx as [Hin Hx]. split; [right; exact Hin|].
      destruct (includes stored x) eqn:Hix; [|reflexivity].
      rewrite (includes_push stored sig x Hix) in Hx. discriminate.
Qed.

(** ** Sequences of runs *)



(** ** C2: which signatures [sign] treats as duplicates *)






(** ** C3: how many distinct signers end up stored *)

(** While the stored entries and the new submitted ones together stay below
    the threshold, and no run sends, every submitted signature is stored
    and nothing is sent. *)
Lemma sign_each_collects (calls : list SignCall) :
  forall (pending : PendingTransaction) (log : list Tx),
    noneSendsNow calls ->
    Z.of_nat (length (signatures pending))
      + Z.of_nat (length (newEntries (signatures pending)
                            (submitted (hashTxId pending) calls)))
      < requiredSignatures pending ->
    exists after,
      sign_each calls {| pending_file := Some pending; sent := log |}
        = {| pending_file := Some after; sent := log |} /\
      forall e,
        In e (signatures after) <->
        In e (signatures pending)
        \/ exists sig, e = SigText sig /\ In sig (submitted (hashTxId pending) calls).
Proof.
  induction calls as [|c rest IH]; intros pending log Hdecl Hbound.
  - exists pending. split; [reflexivity|]. intros e. cbn. split; [auto|].
    intros [H|(sig & _ & [])]. exact H.
  - inversion Hdecl as [|c' rest' Hc Hrest]; subst c' rest'.
    cbn [sign_each submitted] in *. unfold world_after.
    destruct (signedBy (hashTxId pending) c) as [sig|] eqn:Hsig.
    2:{ destruct (sign_error c pending log Hsig) as [e He]. rewrite He. cbn [fst].
        apply IH; assumption. }
    pose proof (newEntries_cons_le (signatures pending) sig
                  (submitted (hashTxId pending) rest)) as Hle.
    destruct (includes (signatures pending) sig) eqn:Hin.
    + assert (Hsame : fst (run_sign c {| pending_file := Some pending; sent := log |})
                      = {| pending_file := Some pending; sent := log |}).
      { destruct (Z_lt_le_dec (Z.of_nat (length (signatures pending)) + 1)
                    (requiredSignatures pending)) as [Hlt|Hge].
        - rewrite (sign_below_threshold c pending log sig Hsig Hlt), Hin. reflexivity.
        - destruct (sign_at_threshold c pending log sig Hsig Hge)
            as (w' & step & Hrun & Hno & _).
          rewrite Hrun. cbn. apply Hno. exact Hc. }
      rewrite Hsame.
      destruct (IH pending log Hrest) as (after & Hrun & Hmem); [lia|].
      exists after. split; [exact Hrun|]. intros e. rewrite Hmem.
      split; intros [H|(s & He & Hs)]; auto.
      * right. exists s. split; [exact He|right; exact Hs].
      * destruct Hs as [Hs|Hs].
        -- subst s e. left. apply includes_In. exact Hin.
        -- right. exists s. auto.
    + pose proof (newEntries_push_lt (signatures pending) sig
                    (submitted (hashTxId pending) rest) Hin) as Hpush.
      rewrite (sign_below_threshold c pending log sig Hsig) by lia.
      rewrite Hin. cbn [fst].
      destruct (IH (push_signature pending (SigText sig)) log Hrest)
        as (after & Hrun & Hmem).
      { cbn. rewrite length_app. cbn. lia. }
      exists after. split; [exact Hrun|]. intros e. rewrite Hmem. cbn.
      rewrite in_app_iff. cbn.
      split.
      * intros [[H|[H|[]]]|(s & He & Hs)]; auto.
        -- right. exists sig. auto.
        -- right. exists s. auto.
      * intros [H|(s & He & [Hs|Hs])]; auto.
        -- subst s. auto.
        -- right. exists s. auto.
Qed.

Lemma In_storedSigners (entries : list SigEntry) (address : string) :
  In address (storedSigners entries) <->
  exists e, In e entries /\ signer (entry_content e) = address.
Proof.
  unfold storedSigners, distinctSigners. rewrite nodup_In, map_map, in_map_iff.
  split; intros (e & H1 & H2); exists e; auto.
Qed.

Lemma In_distinctSigners (sigs : list Signature) (address : string) :
  In address (distinctSigners sigs) <->
  exists sig, In sig sigs /\ signer sig = address.
Proof.
  unfold distinctSigners. rewrite nodup_In, in_map_iff.
  split; intros (e & H1 & H2); exists e; auto.
Qed.

(** X25. Take a sequence of [sign] runs on a stored transaction, none of
    which accepts the offer to send, such that the entries already stored
    plus the distinct new (signer, signature) pairs submitted number fewer
    than [requiredSignatures]. Then nothing is sent, the stored entries
    afterwards are the earlier ones and the texts of all submitted pairs,
    and the distinct signer addresses those entries carry are exactly those
    stored before or submitted: their number does not depend on the order
    of the runs or on repetitions. *)
Theorem sign_collects_distinct_signers (calls : list SignCall)
    (pending : PendingTransaction) (log : list Tx) :
  noneSendsNow calls ->
  Z.of_nat (length (signatures pending))
    + Z.of_nat (length (newEntries (signatures pending)
                          (submitted (hashTxId pending) calls)))
    < requiredSignatures pending ->
  exists after,
    sign_each calls {| pending_file := Some pending; sent := log |}
      = {| pending_file := Some after; sent := log |} /\
    (forall e,
        In e (signatures after) <->
        In e (signatures pending)
        \/ exists sig, e = SigText sig /\ In sig (submitted (hashTxId pending) calls)) /\
    (forall address,
        In address (storedSigners (signatures after)) <->
        In address (storedSigners (signatures pending))
        \/ In address (distinctSigners (submitted (hashTxId pending) calls))) /\
    length (storedSigners (signatures after))
      = length (distinctSigners
                  (map entry_content (signatures pending)
                   ++ submitted (hashTxId pending) calls)).
Proof.
  intros Hdecl Hbound.
  destruct (sign_each_collects calls pending log Hdecl Hbound)
    as (after & Hrun & Hmem).
  assert (Hsigners : forall address,
             In address (storedSigners (signatures after)) <->
             In address (storedSigners (signatures pending))
             \/ In address (distinctSigners (submitted (hashTxId pending) calls))).
  { intros address.
    rewrite !In_storedSigners, In_distinctSigners. split.
    - intros (e & He & Ha). apply Hmem in He as [He|(sig & He & Hs)].
      + left. exists e. auto.
      + right. exists sig. subst e. auto.
    - intros [(e & He & Ha)|(sig & Hs & Ha)].
      + exists e. split; [apply Hmem; auto|exact Ha].
      + exists (SigText sig). split; [apply Hmem; right; exists sig; auto|exact Ha]. }
  exists after. split; [exact Hrun|]. split; [exact Hmem|]. split; [exact Hsigners|].
  unfold storedSigners at 1. unfold distinctSigners.
  apply nodup_length_same_elements. intros address.
  pose proof (Hsigners address) as H.
  unfold storedSigners, distinctSigners in H. rewrite !nodup_In in H.
  rewrite H, map_app, in_app_iff. reflexivity.
Qed.

(** X25 on a 3-of-3 transaction signed by [alice], [bob] and [alice]
    again. *)
Lemma sign_collects_distinct_signers_witness :
  noneSendsNow alice_bob_alice
  /\ Z.of_nat (length (signatures trio_unsigned))
      + Z.of_nat (length (newEntries (signatures trio_unsigned)
                            (submitted (hashTxId trio_unsigned) alice_bob_alice)))
      < requiredSignatures trio_unsigned
  /\ exists after,
       sign_each alice_bob_alice (world_with trio_unsigned)
         = {| pending_file := Some after; sent := [] |} /\
       length (storedSigners (signatures after)) = 2%nat.
Proof.
  assert (H1 : noneSendsNow alice_bob_alice).
  { repeat constructor. }
  assert (H2 : Z.of_nat (length (signatures trio_unsigned))
               + Z.of_nat (length (newEntries (signatures trio_unsigned)
                                     (submitted (hashTxId trio_unsigned) alice_bob_alice)))
               < requiredSignatures trio_unsigned).
  { vm_compute. reflexivity. }
  split; [exact H1|]. split; [exact H2|].
  destruct (sign_collects_distinct_signers alice_bob_alice trio_unsigned [] H1 H2)
    as (after & Hrun & _ & _ & Hcount).
  exists after. split; [exact Hrun|]. rewrite Hcount. vm_compute. reflexivity.
Defined.

(** C3. The code at the failing inputs. On a 1-of-1 transaction one signer
    signs (one address, no more than the threshold): [sign] takes the
    branch of the reached threshold and stores nothing, so the pending file
    is as before and the count of unique signers read from it is 0, not 1.
    On a 3-of-3 transaction two signers sign: [sign] stores the two
    signatures as strings, and the count that [sendTx] computes from their
    [signer] properties is 1, not 2. *)
Theorem C3_failing_input :
  (length (distinctSigners (submitted (hashTxId solo_unsigned) alice_once)) = 1%nat
   /\ 1 <= requiredSignatures solo_unsigned
   /\ sign_each alice_once (world_with solo_unsigned) = world_with solo_unsigned
   /\ uniqueCount (signatures solo_unsigned) = 0)
  /\
  (length (distinctSigners (submitted (hashTxId trio_unsigned) alice_then_bob)) = 2%nat
   /\ 2 <= requiredSignatures trio_unsigned
   /\ sign_each alice_then_bob (world_with trio_unsigned)
      = world_with (demo_pending "trio" 3 [SigText alice_signed; SigText bob_signed])
   /\ uniqueCount [SigText alice_signed; SigText bob_signed] = 1).
Proof.
  split.
  - split; [reflexivity|]. split; [vm_compute; discriminate|].
    split; reflexivity.
  - split; [reflexivity|]. split; [vm_compute; discriminate|].
    split; reflexivity.
Qed.

(** ** C5: the signatures given to [sendTransaction] *)




(** ** C6: when [sign] reports the threshold *)

(** The two branches of a run that signed: with the stored entries plus
    one at the threshold it takes the branch of the reached threshold and
    stores nothing, so the pending file is as before unless the offered
    send went through, which deletes it; below, it takes the other
    branch. *)
Lemma sign_threshold_report (c : SignCall) (pending : PendingTransaction)
    (log : list Tx) (sig : Signature) :
  signedBy (hashTxId pending) c = Some sig ->
  (requiredSignatures pending <= Z.of_nat (length (signatures pending)) + 1 ->
     exists w' step,
       run_sign c {| pending_file := Some pending; sent := log |}
         = (w', Ok (ThresholdReached (reportOf pending sig) step)) /\
       match step with
       | Sent _ => pending_file w' = None
       | _ => pending_file w' = Some pending
       end)
  /\
  (Z.of_nat (length (signatures pending)) + 1 < requiredSignatures pending ->
     exists w',
       run_sign c {| pending_file := Some pending; sent := log |}
         = (w', Ok (NeedMore (reportOf pending sig))))
  /\
  (requiredSignatures pending = 1 ->
     exists w' step,
       run_sign c {| pending_file := Some pending; sent := log |}
         = (w', Ok (ThresholdReached (reportOf pending sig) step)) /\
       match step with
       | Sent _ => pending_file w' = None
       | _ => pending_file w' = Some pending
       end).
Proof.
  intros Hsig.
  assert (Hat : requiredSignatures pending <= Z.of_nat (length (signatures pending)) + 1 ->
                exists w' step,
                  run_sign c {| pending_file := Some pending; sent := log |}
                    = (w', Ok (ThresholdReached (reportOf pending sig) step)) /\
                  match step with
                  | Sent _ => pending_file w' = None
                  | _ => pending_file w' = Some pending
                  end).
  { intros Hle.
    destruct (sign_at_threshold c pending log sig Hsig Hle)
      as (w' & step & Hrun & _ & Hfile & _).
    exists w', step. auto. }
  split; [exact Hat|]. split.
  - intros Hlt. eexists. apply (sign_below_threshold c pending log sig Hsig Hlt).
  - intros H1. apply Hat. lia.
Qed.

(** C6. The code at the failing inputs. On a 1-of-1 transaction [alice]
    signs and declines to send: [sign] reports the threshold as reached,
    yet it has stored nothing, the threshold check of [sendTx] fails and [sendTx]
    answers that it has 0 signatures of 1. On a 2-of-2 transaction that
    holds the signature of [alice], [alice] signs again: [sign] reports the
    threshold as reached with 2 of 2, though one signer has signed. *)
Theorem C6_failing_input :
  (requiredSignatures solo_unsigned = 1
   /\ run_sign alice_declines (world_with solo_unsigned)
      = (world_with solo_unsigned,
         Ok (ThresholdReached (reportOf solo_unsigned alice_first) NotSentNow))
   /\ readyToSend (world_after (run_sign alice_declines) (world_with solo_unsigned))
      = false
   /\ outcome_of (sendTx (demo_env "n1") no_flags true)
        (world_after (run_sign alice_declines) (world_with solo_unsigned))
      = Ok (InsufficientSignatures 0 1))
  /\
  (storedSigners (signatures duo_holding_alice) = [alice]
   /\ run_sign alice_signs (world_with duo_holding_alice)
      = (world_with duo_holding_alice,
         Ok (ThresholdReached
               {| signerAddress := alice; newSignature := "sig-a11ce-n";
                  currentSignatures := 2; required := 2 |} NotSentNow))
   /\ readyToSend (world_after (run_sign alice_signs) (world_with duo_holding_alice))
      = false).
Proof. repeat split. Qed.

(** * Further properties of the commands and services *)

(** ** Listing the configuration directories *)

Lemma endsWith_unfold (s suffix : string) :
  endsWith s suffix
  = if String.eqb s suffix then true
    else match s with
         | EmptyString => false
         | String _ rest => endsWith rest suffix
         end.
Proof. destruct s; reflexivity. Qed.

Lemma endsWith_append (name suffix : string) :
  endsWith (name ++ suffix) suffix = true.
Proof.
  induction name as [|c rest IH].
  - cbn [append]. rewrite endsWith_unfold, String.eqb_refl. reflexivity.
  - rewrite endsWith_unfold. cbn [append].
    destruct (String.eqb (String c (rest ++ suffix)) suffix); [reflexivity|exact IH].
Qed.

Lemma stripPrefix_cons (a b : ascii) (pattern s : string) :
  stripPrefix (String a pattern) (String b s)
  = if Ascii.eqb a b then stripPrefix pattern s else None.
Proof. reflexivity. Qed.

(** The pattern [.json] cannot begin inside a text that does not start
    with it and end in what follows: an occurrence is either wholly in the
    text or starts after it. *)
Lemma stripPrefix_json_straddle (c : ascii) (m after : string) :
  stripPrefix ".json" (String c m) = None ->
  stripPrefix ".json" (String c m ++ ".json" ++ after) = None.
Proof.
  cbn [append]. rewrite !stripPrefix_cons.
  destruct (Ascii.eqb "." c); [|reflexivity].
  destruct m as [|c2 m]; [reflexivity|].
  cbn [append]. rewrite !stripPrefix_cons.
  destruct (Ascii.eqb "j" c2); [|reflexivity].
  destruct m as [|c3 m]; [reflexivity|].
  cbn [append]. rewrite !stripPrefix_cons.
  destruct (Ascii.eqb "s" c3); [|reflexivity].
  destruct m as [|c4 m]; [reflexivity|].
  cbn [append]. rewrite !stripPrefix_cons.
  destruct (Ascii.eqb "o" c4); [|reflexivity].
  destruct m as [|c5 m]; [reflexivity|].
  cbn [append]. rewrite !stripPrefix_cons.
  destruct (Ascii.eqb "n" c5); [|reflexivity].
  cbn [stripPrefix]. discriminate.
Qed.

Lemma removeFirst_json (before after : string) :
  occursIn ".json" before = false ->
  removeFirst (before ++ ".json" ++ after) ".json" = before ++ after.
Proof.
  induction before as [|c rest IH]; intros Hno.
  - reflexivity.
  - assert (Hhead : stripPrefix ".json" (String c rest) = None).
    { change (occursIn ".json" (String c rest))
        with (match stripPrefix ".json" (String c rest) with
              | Some _ => true
              | None => occursIn ".json" rest
              end) in Hno.
      destruct (stripPrefix ".json" (String c rest)); [discriminate|reflexivity]. }
    assert (Hrest : occursIn ".json" rest = false).
    { change (occursIn ".json" (String c rest))
        with (match stripPrefix ".json" (String c rest) with
              | Some _ => true
              | None => occursIn ".json" rest
              end) in Hno.
      rewrite Hhead in Hno. exact Hno. }
    change (removeFirst (String c rest ++ ".json" ++ after) ".json")
      with (match stripPrefix ".json" (String c rest ++ ".json" ++ after) with
            | Some r => r
            | None => String c (removeFirst (rest ++ ".json" ++ after) ".json")
            end).
    rewrite (stripPrefix_json_straddle c rest after Hhead).
    rewrite (IH Hrest). reflexivity.
Qed.

(** X1. A file [name.json] whose name holds no [.json] is listed under
    [name]; in general, it is the first [.json] of the file name that is
    removed, not its extension; and every listed name comes from an entry
    that ends in [.json]. *)
Theorem listWalletFiles_names (entries : list string) :
  (forall name,
      occursIn ".json" name = false ->
      In (name ++ ".json") entries ->
      In name (listWalletFiles entries))
  /\
  (forall before after,
      occursIn ".json" before = false ->
      endsWith (before ++ ".json" ++ after) ".json" = true ->
      In (before ++ ".json" ++ after) entries ->
      In (before ++ after) (listWalletFiles entries))
  /\
  (forall listed,
      In listed (listWalletFiles entries) ->
      exists file,
        In file entries /\ endsWith file ".json" = true /\
        listed = removeFirst file ".json").
Proof.
  assert (Hgeneral : forall before after,
             occursIn ".json" before = false ->
             endsWith (before ++ ".json" ++ after) ".json" = true ->
             In (before ++ ".json" ++ after) entries ->
             In (before ++ after) (listWalletFiles entries)).
  { intros before after Hno Hends Hin. unfold listWalletFiles.
    apply in_map_iff. exists (before ++ ".json" ++ after). split.
    - apply removeFirst_json. exact Hno.
    - apply filter_In. split; assumption. }
  split; [|split; [exact Hgeneral|]].
  - intros name Hno Hin.
    assert (Hnil : forall x : string, x ++ EmptyString = x).
    { induction x as [|c x IH]; cbn; [reflexivity|rewrite IH; reflexivity]. }
    rewrite <- (Hnil name) at 1.
    apply Hgeneral; [exact Hno| |].
    + change (".json" ++ EmptyString) with ".json". apply endsWith_append.
    + change (".json" ++ EmptyString) with ".json". exact Hin.
  - intros listed Hin. unfold listWalletFiles in Hin.
    apply in_map_iff in Hin as (file & Hname & Hin).
    apply filter_In in Hin as [Hin Hends].
    exists file. auto.
Qed.

(** X1 on a directory holding [duo.json], [notes.txt] and
    [old.json.bak.json]. *)
Lemma listWalletFiles_names_witness :
  occursIn ".json" "duo" = false
  /\ In ("duo" ++ ".json") demo_entries
  /\ In "duo" (listWalletFiles demo_entries)
  /\ occursIn ".json" "old" = false
  /\ endsWith ("old" ++ ".json" ++ ".bak.json") ".json" = true
  /\ In ("old" ++ ".json" ++ ".bak.json") demo_entries
  /\ In ("old" ++ ".bak.json") (listWalletFiles demo_entries).
Proof.
  destruct (listWalletFiles_names demo_entries) as (Hname & Hfirst & _).
  assert (H1 : occursIn ".json" "duo" = false) by reflexivity.
  assert (H2 : In ("duo" ++ ".json") demo_entries) by (left; reflexivity).
  assert (H3 : occursIn ".json" "old" = false) by reflexivity.
  assert (H4 : endsWith ("old" ++ ".json" ++ ".bak.json") ".json" = true)
    by reflexivity.
  assert (H5 : In ("old" ++ ".json" ++ ".bak.json") demo_entries)
    by (right; right; left; reflexivity).
  split; [exact H1|]. split; [exact H2|]. split; [exact (Hname "duo" H1 H2)|].
  split; [exact H3|]. split; [exact H4|]. split; [exact H5|].
  exact (Hfirst "old" ".bak.json" H3 H4 H5).
Defined.

(** ** Loading configuration files *)

(** X2. [loadNetworkConfig] accepts a network exactly when its file exists
    and parses, [url] is a non-empty string and [assets.ETH] is a non-empty
    string; [USDC] and [explorerUrl] are not required. The configuration it
    returns carries the requested name and the values of the file. *)
Theorem loadNetworkConfig_acceptance (env : Env) (name : string)
    (cfg : NetworkConfig) :
  loadNetworkConfig env name = Ok cfg <->
  exists raw rawAssets,
    network_files env name = Json raw /\
    raw_assets raw = Some rawAssets /\
    raw_url raw = Some (url cfg) /\ url cfg <> EmptyString /\
    raw_ETH rawAssets = Some (ETH (assets cfg)) /\
    ETH (assets cfg) <> EmptyString /\
    network_name cfg = name /\
    USDC (assets cfg) = raw_USDC rawAssets /\
    explorerUrl cfg = raw_explorerUrl raw.
Proof.
  unfold loadNetworkConfig, validateNetworkConfig, truthy, or_else. split.
  - destruct (network_files env name) as [|e|raw]; try discriminate.
    destruct (raw_url raw) as [u|] eqn:Hu; cbn; [|discriminate].
    destruct (String.eqb u EmptyString) eqn:Hue; cbn; [discriminate|].
    destruct (raw_assets raw) as [a|] eqn:Ha; [|discriminate].
    destruct (raw_ETH a) as [eth|] eqn:He; cbn; [|discriminate].
    destruct (String.eqb eth EmptyString) eqn:Hee; cbn; [discriminate|].
    intros H. inversion H; subst cfg; clear H. cbn.
    apply String.eqb_neq in Hue, Hee.
    exists raw, a. repeat split; auto.
  - intros (raw & a & Hfile & Ha & Hu & Hune & He & Hene & Hname & Husdc & Hex).
    rewrite Hfile, Hu, Ha, He.
    apply String.eqb_neq in Hune, Hene. rewrite Hune, Hene. cbn.
    destruct cfg as [n u [eth usdc] ex]. cbn in *. subst. reflexivity.
Qed.

(** What is known of a configuration that [loadWalletConfig] returned. *)
Lemma loadWalletConfig_ok (env : Env) (name : string) (cfg : WalletConfig) :
  loadWalletConfig env name = Ok cfg ->
  wallet_name cfg = name
  /\ version cfg <> EmptyString
  /\ 1 <= SIGNATURES_COUNT (config cfg)
       <= Z.of_nat (length (validSigners (SIGNERS (config cfg))))
  /\ ~ In zero_address (validSigners (SIGNERS (config cfg))).
Proof.
  unfold loadWalletConfig, validateWalletConfig.
  destruct (wallet_files env name) as [|e|raw]; try discriminate.
  destruct (raw_config raw) as [c|]; [|discriminate].
  destruct (raw_SIGNERS c) as [[|s0 rest]|]; try discriminate.
  destruct (raw_SIGNATURES_COUNT c) as [count|]; [|discriminate].
  destruct (count =? 0) eqn:H0; [discriminate|].
  destruct (count <? 1) eqn:H1; [discriminate|]. cbn [orb].
  unfold truthy, or_else.
  destruct (raw_version raw) as [v|]; cbn [negb]; [|discriminate].
  destruct (String.eqb v EmptyString) eqn:Hv; cbn [negb]; [discriminate|].
  destruct (count >? Z.of_nat (length (validSigners (s0 :: rest)))) eqn:Hb;
    [discriminate|].
  intros H. inversion H; subst cfg; clear H. cbn [wallet_name version config
    SIGNATURES_COUNT SIGNERS].
  apply Z.ltb_ge in H1. rewrite Z.gtb_ltb in Hb. apply Z.ltb_ge in Hb.
  apply String.eqb_neq in Hv.
  repeat split; auto.
  unfold validSigners. intros Hin. apply filter_In in Hin as [_ Hin].
  rewrite String.eqb_refl in Hin. discriminate.
Qed.

(** X3. A wallet configuration that [loadWalletConfig] returns carries the
    requested name, a non-empty version, and a threshold that is at least 1
    and at most the number of its signers other than the zero address. *)
Theorem loadWalletConfig_bounds (env : Env) (name : string) (cfg : WalletConfig) :
  loadWalletConfig env name = Ok cfg ->
  wallet_name cfg = name
  /\ version cfg <> EmptyString
  /\ 1 <= SIGNATURES_COUNT (config cfg)
       <= Z.of_nat (length (validSigners (SIGNERS (config cfg))))
  /\ ~ In zero_address (validSigners (SIGNERS (config cfg))).
Proof. apply loadWalletConfig_ok. Qed.

Lemma loadWalletConfig_bounds_witness :
  exists cfg,
    loadWalletConfig (demo_env "n") "duo" = Ok cfg /\
    1 <= SIGNATURES_COUNT (config cfg)
      <= Z.of_nat (length (validSigners (SIGNERS (config cfg)))).
Proof.
  eexists. split; [reflexivity|].
  apply (loadWalletConfig_bounds (demo_env "n") "duo" _ eq_refl).
Defined.

(** ** The listing and balance commands *)

(** X4. [listWallets] reports every listed file, in directory order, and
    counts them all. A wallet whose file does not load is reported as
    invalid in its place; one that loads is shown with a threshold between
    1 and the number of signers shown. *)
Theorem listWallets_lines (env : Env) (entries : list string) :
  match listWallets env entries with
  | NoWalletsFound => listWalletFiles entries = []
  | WalletsListed lines total =>
      total = length (listWalletFiles entries) /\
      map walletLineName lines = listWalletFiles entries /\
      Forall (walletLineSound env) lines
  end.
Proof.
  unfold listWallets.
  destruct (listWalletFiles entries) as [|first rest] eqn:Hlist; [reflexivity|].
  split; [reflexivity|].
  generalize (first :: rest). intros names. split.
  - induction names as [|n more IH]; cbn; [reflexivity|].
    rewrite IH. f_equal. unfold walletLine.
    destruct (loadWalletConfig env n); reflexivity.
  - induction names as [|n more IH]; cbn; constructor; [|exact IH].
    unfold walletLine, walletLineSound.
    destruct (loadWalletConfig env n) as [cfg|e] eqn:Hload; cbn.
    + rewrite Hload. split; [reflexivity|].
      apply (loadWalletConfig_ok env n cfg Hload).
    + rewrite Hload. reflexivity.
Qed.

Lemma getVaultInfo_fields (env : Env) (q : Queries) (cfg : VaultConfig)
    (info : VaultInfo) :
  getVaultInfo env q cfg = Ok info ->
  info_signers info = SIGNERS (config (wallet cfg)) /\
  info_signaturesRequired info = SIGNATURES_COUNT (config (wallet cfg)).
Proof.
  unfold getVaultInfo.
  destruct (createVaultInstance env cfg); [|discriminate].
  intros H. inversion H. cbn. auto.
Qed.

(** X5. The balance queries hide a failing node: when the vault can be
    built, [getVaultBalances] never throws and answers with no balances if
    [vault.getBalances] fails, and [getVaultInfo] never throws and reports
    the balance as 0 if [vault.getBalance] fails. Both throw exactly when
    the vault cannot be built. The signers [getVaultInfo] returns are those
    of the wallet file, zero addresses included. *)
Theorem vault_queries_hide_failures (env : Env) (q : Queries) (cfg : VaultConfig) :
  is_ok (getVaultBalances env q cfg) = is_ok (createVaultInstance env cfg)
  /\ is_ok (getVaultInfo env q cfg) = is_ok (createVaultInstance env cfg)
  /\ (forall vault,
        createVaultInstance env cfg = Ok vault ->
        is_ok (vault_getBalances q vault) = false ->
        getVaultBalances env q cfg = Ok [])
  /\ (forall vault,
        createVaultInstance env cfg = Ok vault ->
        is_ok (vault_getBalance q vault (ETH (assets (network cfg)))) = false ->
        exists info,
          getVaultInfo env q cfg = Ok info /\ info_balance info = "0")
  /\ (forall info,
        getVaultInfo env q cfg = Ok info ->
        info_signers info = SIGNERS (config (wallet cfg)) /\
        info_signaturesRequired info = SIGNATURES_COUNT (config (wallet cfg))).
Proof.
  unfold getVaultBalances, getVaultInfo.
  destruct (createVaultInstance env cfg) as [vault|e]; cbn.
  - split; [destruct (vault_getBalances q vault); reflexivity|].
    split; [reflexivity|]. split; [|split].
    + intros v Hv Hfail. inversion Hv; subst v.
      destruct (vault_getBalances q vault); [discriminate|reflexivity].
    + intros v Hv Hfail. inversion Hv; subst v.
      destruct (vault_getBalance q vault _); [discriminate|].
      eexists. split; reflexivity.
    + intros info H. inversion H. cbn. auto.
  - repeat split; try discriminate.
Qed.

Lemma vault_queries_hide_failures_witness :
  getVaultBalances (demo_env "n") failing_queries
    {| wallet := {| wallet_name := "solo";
                    config := {| SIGNATURES_COUNT := 1; SIGNERS := [alice];
                                 HASH_PREDICATE := None |};
                    version := "0xversion" |};
       network := {| network_name := "testnet"; url := "https://node";
                     assets := {| ETH := "0xeth"; USDC := None |};
                     explorerUrl := None |} |} = Ok [].
Proof.
  eapply (proj1 (proj2 (proj2 (vault_queries_hide_failures (demo_env "n")
                                 failing_queries _)))); reflexivity.
Defined.

Lemma walletSections_ok (env : Env) (q : Queries) (networks wallets : list string) :
  is_ok (walletSections env q networks wallets)
  = forallb (fun name => is_ok (loadWalletConfig env name)) wallets.
Proof.
  induction wallets as [|name rest IH]; cbn; [reflexivity|].
  destruct (loadWalletConfig env name); cbn; [|reflexivity].
  rewrite <- IH. destruct (walletSections env q networks rest); reflexivity.
Qed.

Lemma walletSections_shape (env : Env) (q : Queries) (networks wallets : list string)
    (sections : list (string * list BalanceLine)) :
  walletSections env q networks wallets = Ok sections ->
  map fst sections = wallets /\
  Forall (fun section => map balanceLineNetwork (snd section) = networks) sections.
Proof.
  revert sections. induction wallets as [|name rest IH]; intros sections H; cbn in H.
  - inversion H. split; [reflexivity|constructor].
  - destruct (loadWalletConfig env name) as [wc|e]; [|discriminate].
    destruct (walletSections env q networks rest) as [more|e]; [|discriminate].
    inversion H; subst sections; clear H.
    destruct (IH more eq_refl) as [Hnames Hlines]. cbn. split.
    + rewrite Hnames. reflexivity.
    + constructor; [|exact Hlines]. cbn. rewrite map_map.
      clear. induction networks as [|n more' IHn]; cbn; [reflexivity|].
      rewrite IHn. f_equal. unfold networkSection.
      destruct (loadNetworkConfig env n); [|reflexivity].
      destruct (getVaultBalances env q _); reflexivity.
Qed.

(** X6. With wallets and networks listed, [balances] throws exactly when
    some listed wallet fails to load; a network that fails to load, a vault
    that cannot be built or a query that fails never makes it throw. When
    it does not throw it reports one section per wallet and, in each, one
    line per network, in directory order. *)
Theorem balances_aborts_on_invalid_wallet (env : Env) (q : Queries)
    (walletEntries networkEntries : list string) :
  listWalletFiles walletEntries <> [] ->
  listNetworkFiles networkEntries <> [] ->
  is_ok (balances env q walletEntries networkEntries)
    = forallb (fun name => is_ok (loadWalletConfig env name))
        (listWalletFiles walletEntries)
  /\
  (forall outcome,
      balances env q walletEntries networkEntries = Ok outcome ->
      exists sections,
        outcome = BalancesReport sections /\
        map fst sections = listWalletFiles walletEntries /\
        Forall (fun section =>
                  map balanceLineNetwork (snd section)
                  = listNetworkFiles networkEntries) sections).
Proof.
  intros Hw Hn. unfold balances.
  destruct (listWalletFiles walletEntries) as [|w ws] eqn:Hws; [contradiction|].
  destruct (listNetworkFiles networkEntries) as [|n ns] eqn:Hns; [contradiction|].
  rewrite <- (walletSections_ok env q (n :: ns) (w :: ws)).
  destruct (walletSections env q (n :: ns) (w :: ws)) as [sections|e] eqn:Hs.
  - split; [reflexivity|]. intros outcome H. inversion H; subst outcome.
    exists sections. split; [reflexivity|].
    apply (walletSections_shape env q (n :: ns) (w :: ws) sections Hs).
  - split; [reflexivity|]. discriminate.
Qed.

Lemma balances_aborts_on_invalid_wallet_witness :
  listWalletFiles demo_entries <> []
  /\ listNetworkFiles ["testnet.json"] <> []
  /\ is_ok (balances (demo_env "n") failing_queries demo_entries ["testnet.json"])
     = true.
Proof.
  assert (H1 : listWalletFiles demo_entries <> []) by discriminate.
  assert (H2 : listNetworkFiles ["testnet.json"] <> []) by discriminate.
  split; [exact H1|]. split; [exact H2|].
  rewrite (proj1 (balances_aborts_on_invalid_wallet (demo_env "n") failing_queries
                    demo_entries ["testnet.json"] H1 H2)).
  reflexivity.
Defined.

(** X7. [walletInfo] reports an error exactly when a name is missing, a
    configuration does not load or the vault cannot be built; failing
    balance queries do not stop it. What it shows has no zero address among
    the signers and a threshold between 1 and the number of signers shown. *)
Theorem walletInfo_shown (env : Env) (q : Queries) (walletName networkName : JsString) :
  (forall report,
      walletInfo env q walletName networkName = WalletShown report ->
      ~ In zero_address (shown_signers report) /\
      1 <= shown_required report <= Z.of_nat (length (shown_signers report)))
  /\
  (forall walletConfig networkConfig vault,
      truthy walletName = true ->
      truthy networkName = true ->
      loadWalletConfig env (or_else walletName EmptyString) = Ok walletConfig ->
      loadNetworkConfig env (or_else networkName EmptyString) = Ok networkConfig ->
      createVaultInstance env {| wallet := walletConfig; network := networkConfig |}
        = Ok vault ->
      exists report, walletInfo env q walletName networkName = WalletShown report).
Proof.
  unfold walletInfo. split.
  - intros report.
    destruct (truthy walletName); cbn; [|discriminate].
    destruct (truthy networkName); cbn; [|discriminate].
    destruct (loadWalletConfig env _) as [wc|e] eqn:Hw; [|discriminate].
    destruct (loadNetworkConfig env _) as [nc|e]; [|discriminate].
    destruct (getVaultInfo env q _) as [info|e] eqn:Hinfo; [|discriminate].
    destruct (getVaultBalances env q _) as [found|e]; [|discriminate].
    intros H. inversion H; subst report; clear H. cbn.
    destruct (getVaultInfo_fields env q {| wallet := wc; network := nc |}
                info Hinfo) as [Hs Hr].
    cbn in Hs, Hr. rewrite Hs, Hr.
    destruct (loadWalletConfig_ok env _ wc Hw) as (_ & _ & Hb & Hz).
    auto.
  - intros wc nc vault Hw Hn Hlw Hln Hv. rewrite Hw, Hn, Hlw, Hln. cbn.
    unfold getVaultInfo, getVaultBalances. rewrite Hv.
    destruct (vault_getBalances q vault); eexists; reflexivity.
Qed.

Lemma walletInfo_shown_witness :
  exists report,
    walletInfo (demo_env "n") failing_queries (Some "duo") (Some "testnet")
      = WalletShown report /\
    1 <= shown_required report <= Z.of_nat (length (shown_signers report)).
Proof.
  eexists. split; [reflexivity|].
  apply (proj1 (walletInfo_shown (demo_env "n") failing_queries (Some "duo")
                  (Some "testnet")) _ eq_refl).
Defined.

(** ** Building and sending a transaction *)

(** X8. [encodeWitnesses] succeeds exactly when every signature encodes,
    and then gives the encodings in the order of the signatures; one
    signature that does not encode makes the whole list fail. *)
Theorem encodeWitnesses_each (env : Env) (vault : Vault) (sigs : list SigEntry) :
  (forall encoded,
      encodeWitnesses env vault sigs = Ok encoded <->
      Forall2 (fun sig one =>
                 vault_encodeSignature env vault (entry_signer sig)
                   (entry_signature sig) = Ok one) sigs encoded)
  /\
  is_ok (encodeWitnesses env vault sigs)
    = forallb (fun sig => is_ok (vault_encodeSignature env vault (entry_signer sig)
                                   (entry_signature sig))) sigs.
Proof.
  split.
  - induction sigs as [|sig rest IH]; intros encoded; cbn.
    + split; intros H.
      * inversion H. constructor.
      * inversion H. reflexivity.
    + destruct (vault_encodeSignature env vault (entry_signer sig)
                  (entry_signature sig)) as [one|e] eqn:Hone.
      * destruct (encodeWitnesses env vault rest) as [more|e] eqn:Hrest.
        -- split; intros H.
           ++ inversion H; subst encoded. constructor; [exact Hone|].
              apply IH. reflexivity.
           ++ inversion H as [|x y l l' Hx Hl]; subst.
              rewrite Hone in Hx. inversion Hx; subst y.
              apply IH in Hl. inversion Hl. reflexivity.
        -- split; intros H; [discriminate|].
           inversion H as [|x y l l' Hx Hl]; subst.
           apply IH in Hl. discriminate.
      * split; intros H; [discriminate|].
        inversion H as [|x y l l' Hx Hl]; subst.
        rewrite Hone in Hx. discriminate.
  - induction sigs as [|sig rest IH]; cbn; [reflexivity|].
    destruct (vault_encodeSignature env vault _ _); cbn; [|reflexivity].
    rewrite <- IH. destruct (encodeWitnesses env vault rest); reflexivity.
Qed.

(** X9. [sendTransaction] hands a transaction to [vault.send] only when the
    vault was built, a pending transaction is stored, the transaction was
    rebuilt from the stored recipient, amount and asset (the network's ETH
    when none is stored) and every given signature encoded; otherwise it
    throws with nothing sent. In particular it throws, sending nothing,
    when no pending transaction is stored. *)
Theorem sendTransaction_sends_the_stored_intent (env : Env) (cfg : VaultConfig)
    (sigs : list SigEntry) :
  (forall w,
      (exists e, sendTransaction env cfg sigs w = (w, Throw e))
      \/ exists vault pending built encoded,
           createVaultInstance env cfg = Ok vault /\
           pending_file w = Some pending /\
           vault_transaction env vault
             (or_else (assetId (transaction pending)) (ETH (assets (network cfg))))
             (amount (transaction pending)) (to (transaction pending)) = Ok built /\
           encodeWitnesses env vault sigs = Ok encoded /\
           sent (world_after (sendTransaction env cfg sigs) w)
             = (sent w ++ [{| tx_request := tx_request (fst built);
                              witnesses := encoded |}])%list)
  /\
  (forall log,
      exists e,
        sendTransaction env cfg sigs {| pending_file := None; sent := log |}
          = ({| pending_file := None; sent := log |}, Throw e)).
Proof.
  split.
  - intros w. unfold world_after, sendTransaction. unfold_cmd.
    destruct (createVaultInstance env cfg) as [vault|e]; [|left; eauto].
    destruct (pending_file w) as [pending|] eqn:Hp; [|left; eauto].
    destruct (vault_transaction env vault _ _ _) as [built|e] eqn:Hb; [|left; eauto].
    destruct (encodeWitnesses env vault sigs) as [encoded|e] eqn:He; [|left; eauto].
    right. exists vault, pending, built, encoded.
    repeat split; auto.
    destruct (vault_send env vault _) as [response|e]; [|reflexivity].
    destruct (response_waitForResult env response); [|reflexivity].
    cbn. rewrite Hp. reflexivity.
  - intros log. unfold sendTransaction. unfold_cmd. cbn.
    destruct (createVaultInstance env cfg); eauto.
Qed.

Lemma or_else_nonempty (a : JsString) (b : string) :
  b <> EmptyString -> or_else a b <> EmptyString.
Proof.
  intros Hb. unfold or_else. destruct a as [s|]; [|exact Hb].
  destruct (String.eqb s EmptyString) eqn:Hs; [exact Hb|].
  apply String.eqb_neq. exact Hs.
Qed.

(** X10. The result of a successful [sendTransaction] carries the id of the
    response of [vault.send] and a status that is never empty: the status
    of the awaited result, or [success] when that one is missing or
    empty. *)
Theorem sendTransaction_result (env : Env) (cfg : VaultConfig)
    (sigs : list SigEntry) (w : World) :
  match outcome_of (sendTransaction env cfg sigs) w with
  | Throw _ => True
  | Ok result =>
      status result <> EmptyString /\
      exists vault tx response awaited,
        createVaultInstance env cfg = Ok vault /\
        vault_send env vault tx = Ok response /\
        response_waitForResult env response = Ok awaited /\
        transactionId result = response_id response /\
        status result = (if truthy awaited then or_else awaited EmptyString
                         else "success")
  end.
Proof.
  unfold outcome_of.
  destruct (sendTransaction_cases env cfg sigs w)
    as [(e & w' & Hs & _)
       |(v & p & b & enc & r & st & Hv & _ & _ & Hsend & Hwait & Hs)];
    rewrite Hs; cbn; [exact I|].
  split; [apply or_else_nonempty; discriminate|].
  eexists v, _, r, st. repeat split; [exact Hv|exact Hsend|exact Hwait|].
  unfold truthy, or_else. destruct st as [s|]; [|reflexivity].
  destruct (String.eqb s EmptyString); reflexivity.
Qed.

(** X11. [createTransaction] writes all or nothing, and does not look at what
    is stored. If the vault cannot be built, or the transaction cannot, it
    throws that error and leaves the world as it was. Otherwise it replaces
    whatever pending transaction there was by one with no signatures, the
    given input, the wallet's threshold and names, the time of the clock,
    and the hash of the built transaction stored both as [hashTxId] and as
    [encodedTxId], and it returns that hash and threshold. It never
    sends. *)
Theorem createTransaction_all_or_nothing (env : Env) (cfg : VaultConfig)
    (input : TransactionInput) (w : World) :
  (forall e,
      createVaultInstance env cfg = Throw e ->
      createTransaction env cfg input w = (w, Throw e))
  /\
  (forall vault e,
      createVaultInstance env cfg = Ok vault ->
      vault_transaction env vault
        (or_else (assetId input) (ETH (assets (network cfg))))
        (amount input) (to input) = Throw e ->
      createTransaction env cfg input w = (w, Throw e))
  /\
  (forall vault built,
      createVaultInstance env cfg = Ok vault ->
      vault_transaction env vault
        (or_else (assetId input) (ETH (assets (network cfg))))
        (amount input) (to input) = Ok built ->
      createTransaction env cfg input w
      = ({| pending_file :=
              Some {| walletName := wallet_name (wallet cfg);
                      networkName := network_name (network cfg);
                      hashTxId := snd built;
                      encodedTxId := snd built;
                      txRequest := tx_request (fst built);
                      transaction := input;
                      createdAt := clock env;
                      signatures := [];
                      requiredSignatures := SIGNATURES_COUNT (config (wallet cfg)) |};
            sent := sent w |},
         Ok {| created_hashTxId := snd built;
               vaultAddress := vault_address env vault;
               signersRequired := SIGNATURES_COUNT (config (wallet cfg)) |})).
Proof.
  unfold createTransaction. unfold_cmd. split; [|split].
  - intros e Hv. rewrite Hv. reflexivity.
  - intros vault e Hv Hb. rewrite Hv. cbn. rewrite Hb. reflexivity.
  - intros vault built Hv Hb. rewrite Hv. cbn. rewrite Hb. reflexivity.
Qed.

(** X11 on a world that holds a signed transaction. *)
Lemma createTransaction_all_or_nothing_witness :
  createVaultInstance (demo_env "n") duo_config = Ok duo_vault
  /\ vault_transaction (demo_env "n") duo_vault "0xeth" "0.001" "0xdead"
     = Ok (demo_tx [], "0xhash")
  /\ createTransaction (demo_env "n") duo_config
       {| to := "0xdead"; amount := "0.001"; assetId := None |}
       (world_with solo_signed)
     = (world_with (demo_pending "duo" 2 []),
        Ok {| created_hashTxId := "0xhash"; vaultAddress := "0xvault";
              signersRequired := 2 |}).
Proof.
  do 2 (split; [reflexivity|]).
  apply (proj2 (proj2 (createTransaction_all_or_nothing (demo_env "n") duo_config
                         {| to := "0xdead"; amount := "0.001"; assetId := None |}
                         (world_with solo_signed)))
           duo_vault (demo_tx [], "0xhash"));
    reflexivity.
Defined.

(** ** The [create-tx] command *)

(** What the part of [createTx] after the replace prompt does: it leaves
    the world alone and reports something other than a creation, or it
    stores a new transaction built from the loaded wallet and network. *)
Lemma createTx_new_effects (env : Env) (options : CreateTxOptions) (w : World) :
  (exists r,
      createTx_new env options w = (w, r) /\
      forall result, r <> Ok (Created result))
  \/
  (exists fresh result walletConfig networkConfig,
      createTx_new env options w
        = ({| pending_file := Some fresh; sent := sent w |}, Ok (Created result)) /\
      loadWalletConfig env (or_else (opt_wallet options) EmptyString)
        = Ok walletConfig /\
      loadNetworkConfig env (or_else (opt_network options) EmptyString)
        = Ok networkConfig /\
      readTxInput env options = Ok (inr (transaction fresh)) /\
      signatures fresh = [] /\
      requiredSignatures fresh = SIGNATURES_COUNT (config walletConfig) /\
      signersRequired result = SIGNATURES_COUNT (config walletConfig) /\
      walletName fresh = wallet_name walletConfig /\
      networkName fresh = network_name networkConfig).
Proof.
  unfold createTx_new.
  destruct (negb (truthy (opt_wallet options)));
    [left; eexists; split; [reflexivity|discriminate]|].
  destruct (negb (truthy (opt_network options)));
    [left; eexists; split; [reflexivity|discriminate]|].
  unfold_cmd.
  destruct (readTxInput env options) as [[refused|txInput]|e] eqn:Hin.
  - left. eexists. split; [reflexivity|].
    intros result H. inversion H as [Hr].
    exact (readTxInput_refusal env options refused Hin result Hr).
  - destruct (loadWalletConfig env _) as [wc|e] eqn:Hw;
      [|left; eexists; split; [reflexivity|discriminate]].
    destruct (loadNetworkConfig env _) as [nc|e] eqn:Hn;
      [|left; eexists; split; [reflexivity|discriminate]].
    unfold createTransaction. unfold_cmd.
    destruct (createVaultInstance env _) as [vault|e];
      [|left; eexists; split; [reflexivity|discriminate]].
    destruct (vault_transaction env vault _ _ _) as [built|e];
      [|left; eexists; split; [reflexivity|discriminate]].
    right. eexists _, _, wc, nc. split; [reflexivity|]. cbn. repeat split.
  - left. eexists. split; [reflexivity|discriminate].
Qed.

(** X12. [createTx] never hands anything to [vault.send]. Unless it reports
    a creation, the pending file afterwards is the one before, except that
    an accepted replace prompt has deleted it: a creation that is refused
    or fails after the prompt was accepted leaves no pending transaction. *)
Theorem createTx_effects (env : Env) (options : CreateTxOptions) (replace : bool)
    (w : World) :
  sent (world_after (createTx env options replace) w) = sent w
  /\
  match outcome_of (createTx env options replace) w with
  | Ok (Created result) =>
      exists fresh,
        pending_file (world_after (createTx env options replace) w) = Some fresh /\
        signatures fresh = []
  | _ =>
      pending_file (world_after (createTx env options replace) w)
      = if replace then None else pending_file w
  end.
Proof.
  assert (Hnew : forall w0,
             sent (fst (createTx_new env options w0)) = sent w0 /\
             match snd (createTx_new env options w0) with
             | Ok (Created result) =>
                 exists fresh,
                   pending_file (fst (createTx_new env options w0)) = Some fresh /\
                   signatures fresh = []
             | _ => pending_file (fst (createTx_new env options w0)) = pending_file w0
             end).
  { intros w0.
    destruct (createTx_new_effects env options w0)
      as [(r & Hrun & Hno)
         |(fresh & result & wc & nc & Hrun & _ & _ & _ & Hsig & _)];
      rewrite Hrun; cbn.
    - split; [reflexivity|]. destruct r as [[| | | | |result|]|]; auto.
      exfalso. exact (Hno result eq_refl).
    - split; [reflexivity|]. exists fresh. auto. }
  unfold world_after, outcome_of, createTx. unfold_cmd.
  destruct w as [[existing|] log]; cbn.
  - destruct replace; cbn.
    + destruct (Hnew {| pending_file := None; sent := log |}) as [Hsent Hfile].
      split; [exact Hsent|].
      destruct (snd (createTx_new env options {| pending_file := None; sent := log |}))
        as [[| | | | |result|]|]; exact Hfile.
    + auto.
  - destruct (Hnew {| pending_file := None; sent := log |}) as [Hsent Hfile].
    split; [exact Hsent|].
    destruct (snd (createTx_new env options {| pending_file := None; sent := log |}))
      as [[| | | | |result|]|]; destruct replace; exact Hfile.
Qed.

(** What is stored when [createTx] reports a creation. *)
Lemma createTx_created (env : Env) (options : CreateTxOptions)
    (replace : bool) (w : World) (result : CreateTxResult) :
  outcome_of (createTx env options replace) w = Ok (Created result) ->
  exists fresh walletConfig,
    pending_file (world_after (createTx env options replace) w) = Some fresh /\
    loadWalletConfig env (or_else (opt_wallet options) EmptyString) = Ok walletConfig /\
    signatures fresh = [] /\
    walletName fresh = or_else (opt_wallet options) EmptyString /\
    networkName fresh = or_else (opt_network options) EmptyString /\
    requiredSignatures fresh = SIGNATURES_COUNT (config walletConfig) /\
    signersRequired result = requiredSignatures fresh /\
    1 <= requiredSignatures fresh
      <= Z.of_nat (length (validSigners (SIGNERS (config walletConfig)))).
Proof.
  assert (Hnew : forall w0,
             snd (createTx_new env options w0) = Ok (Created result) ->
             exists fresh walletConfig,
               pending_file (fst (createTx_new env options w0)) = Some fresh /\
               loadWalletConfig env (or_else (opt_wallet options) EmptyString)
                 = Ok walletConfig /\
               signatures fresh = [] /\
               walletName fresh = or_else (opt_wallet options) EmptyString /\
               networkName fresh = or_else (opt_network options) EmptyString /\
               requiredSignatures fresh = SIGNATURES_COUNT (config walletConfig) /\
               signersRequired result = requiredSignatures fresh /\
               1 <= requiredSignatures fresh
                 <= Z.of_nat (length (validSigners (SIGNERS (config walletConfig))))).
  { intros w0 Hout.
    destruct (createTx_new_effects env options w0)
      as [(r & Hrun & Hno)
         |(fresh & result' & wc & nc & Hrun & Hw & Hn & _ & Hsig & Hreq & Hres & Hwn & Hnn)];
      rewrite Hrun in *; cbn in Hout.
    - exfalso. exact (Hno result Hout).
    - inversion Hout; subst result'. exists fresh, wc. cbn.
      destruct (loadWalletConfig_ok env _ wc Hw) as (Hname & _ & Hb & _).
      assert (Hnet : network_name nc = or_else (opt_network options) EmptyString).
      { unfold loadNetworkConfig, validateNetworkConfig in Hn.
        destruct (network_files env _) as [|e|raw]; try discriminate.
        destruct (negb (truthy (raw_url raw))); [discriminate|].
        destruct (raw_assets raw) as [a|]; [|discriminate].
        destruct (negb (truthy (raw_ETH a))); [discriminate|].
        inversion Hn. reflexivity. }
      rewrite Hwn, Hnn, Hname, Hnet, Hreq, Hres. repeat split; auto; apply Hb. }
  unfold world_after, outcome_of, createTx. unfold_cmd.
  destruct w as [[existing|] log]; cbn.
  - destruct replace; cbn; [apply Hnew|discriminate].
  - apply Hnew.
Qed.

(** X13. When [createTx] reports a creation, the stored transaction has no
    signatures, names the wallet and network of the options, and requires
    the threshold of that wallet's file, which is at least 1 and at most
    the number of the wallet's signers other than the zero address; the
    reported number of signers required is that threshold. *)
Theorem createTx_stores_valid_threshold (env : Env) (options : CreateTxOptions)
    (replace : bool) (w : World) (result : CreateTxResult) :
  outcome_of (createTx env options replace) w = Ok (Created result) ->
  exists fresh walletConfig,
    pending_file (world_after (createTx env options replace) w) = Some fresh /\
    loadWalletConfig env (or_else (opt_wallet options) EmptyString) = Ok walletConfig /\
    signatures fresh = [] /\
    walletName fresh = or_else (opt_wallet options) EmptyString /\
    networkName fresh = or_else (opt_network options) EmptyString /\
    requiredSignatures fresh = SIGNATURES_COUNT (config walletConfig) /\
    signersRequired result = requiredSignatures fresh /\
    1 <= requiredSignatures fresh
      <= Z.of_nat (length (validSigners (SIGNERS (config walletConfig)))).
Proof. apply createTx_created. Qed.

Lemma createTx_stores_valid_threshold_witness :
  exists result fresh,
    outcome_of (createTx (demo_env "n") demo_create_options false) no_pending
      = Ok (Created result) /\
    pending_file (world_after (createTx (demo_env "n") demo_create_options false)
                    no_pending) = Some fresh /\
    requiredSignatures fresh = 2 /\
    signatures fresh = [].
Proof.
  eexists.
  destruct (createTx_stores_valid_threshold (demo_env "n") demo_create_options
              false no_pending _ eq_refl)
    as (fresh & wc & Hfile & Hload & Hsig & _ & _ & Hreq & _).
  exists fresh. split; [reflexivity|]. split; [exact Hfile|].
  split; [|exact Hsig].
  rewrite Hreq. inversion Hload. reflexivity.
Defined.

(** X14. With [--file] the transaction is read from the file alone:
    [--to], [--amount] and [--asset] are ignored. A file that is missing is
    reported; one that does not parse makes [createTx] itself throw, since
    it is read outside the [try], and this after an accepted replace prompt
    has already deleted the pending transaction. *)
Theorem createTx_reads_the_file_first (env : Env) :
  (forall wallet1 network1 to1 amount1 asset1 wallet2 network2 to2 amount2 asset2 file,
      truthy file = true ->
      readTxInput env {| opt_wallet := wallet1; opt_network := network1;
                         opt_to := to1; opt_amount := amount1;
                         opt_asset := asset1; opt_file := file |}
      = readTxInput env {| opt_wallet := wallet2; opt_network := network2;
                           opt_to := to2; opt_amount := amount2;
                           opt_asset := asset2; opt_file := file |})
  /\
  (forall options replace existing log message,
      truthy (opt_wallet options) = true ->
      truthy (opt_network options) = true ->
      truthy (opt_file options) = true ->
      tx_files env (or_else (opt_file options) EmptyString) = BadJson message ->
      createTx env options replace {| pending_file := Some existing; sent := log |}
      = if replace
        then ({| pending_file := None; sent := log |}, Throw message)
        else ({| pending_file := Some existing; sent := log |}, Ok (Conflict existing))).
Proof.
  split.
  - intros. unfold readTxInput. cbn. rewrite H. reflexivity.
  - intros options replace existing log message Hw Hn Hf Hbad.
    unfold createTx, createTx_new, readTxInput. unfold_cmd. cbn.
    destruct replace; cbn; [|reflexivity].
    rewrite Hw, Hn, Hf, Hbad. reflexivity.
Qed.

Lemma createTx_reads_the_file_first_witness :
  truthy (opt_wallet file_create_options) = true
  /\ truthy (opt_network file_create_options) = true
  /\ truthy (opt_file file_create_options) = true
  /\ tx_files bad_file_env (or_else (opt_file file_create_options) EmptyString)
     = BadJson "Unexpected end of JSON input"
  /\ createTx bad_file_env file_create_options true (world_with solo_signed)
     = (no_pending, Throw "Unexpected end of JSON input")
  /\ readTxInput bad_file_env file_create_options
     = readTxInput bad_file_env
         {| opt_wallet := None; opt_network := None; opt_to := Some "0xdead";
            opt_amount := Some "1"; opt_asset := Some "0xeth";
            opt_file := Some "tx.json" |}.
Proof.
  destruct (createTx_reads_the_file_first bad_file_env) as [Hfirst Hbad].
  do 4 (split; [reflexivity|]).
  split.
  - exact (Hbad file_create_options true solo_signed [] _ eq_refl eq_refl eq_refl
             eq_refl).
  - exact (Hfirst _ _ _ _ _ _ _ _ _ _ (Some "tx.json") eq_refl).
Defined.

(** ** The [sign] command *)

Lemma sameButSignatures_trans (a b c : PendingTransaction) :
  sameButSignatures a b -> sameButSignatures b c -> sameButSignatures a c.
Proof.
  unfold sameButSignatures. intros Hab Hbc. rewrite <- Hbc at 2.
  rewrite <- Hab. reflexivity.
Qed.

(** Whatever the runs, a pending transaction that is still there differs
    from the first one in its signatures only, and holds no more entries
    than it had or than the threshold less one. *)
Lemma sign_each_frame (calls : list SignCall) :
  forall (pending : PendingTransaction) (log : list Tx),
    pending_file (sign_each calls {| pending_file := Some pending; sent := log |}) = None
    \/ exists after,
         pending_file (sign_each calls {| pending_file := Some pending; sent := log |})
           = Some after /\
         sameButSignatures pending after /\
         Z.of_nat (length (signatures after))
           <= Z.max (Z.of_nat (length (signatures pending)))
                (requiredSignatures pending - 1).
Proof.
  induction calls as [|c rest IH]; intros pending log.
  - right. exists pending. cbn. split; [reflexivity|].
    split; [destruct pending; reflexivity|lia].
  - cbn [sign_each].
    pose proof (sign_step c pending log) as Hstep. cbv zeta in Hstep.
    destruct (world_after (run_sign c) {| pending_file := Some pending; sent := log |})
      as [file1 log1].
    cbn [pending_file] in Hstep.
    destruct Hstep as [H1|[H1|(sig & _ & _ & Hlt & H1)]].
    + subst file1. left. rewrite sign_each_no_pending. reflexivity.
    + subst file1. apply IH.
    + inversion H1; subst file1 log1; clear H1.
      destruct (IH (push_signature pending (SigText sig)) log)
        as [Hnone|(after & Hfile & Hsame & Hlen)]; [left; exact Hnone|].
      right. exists after. split; [exact Hfile|]. split.
      * apply (sameButSignatures_trans pending (push_signature pending (SigText sig)));
          [reflexivity|exact Hsame].
      * cbn in Hlen. rewrite length_app in Hlen. cbn in Hlen. lia.
Qed.

(** X15. Whatever sequence of [sign] runs is made, a pending transaction
    that is still stored afterwards has the hash, the threshold, the
    recipient, amount and asset, the wallet and network names and the
    creation time it had before: [sign] changes the signature list only. *)
Theorem sign_changes_signatures_only (calls : list SignCall)
    (pending : PendingTransaction) (log : list Tx) :
  match pending_file (sign_each calls {| pending_file := Some pending; sent := log |}) with
  | None => True
  | Some after =>
      hashTxId after = hashTxId pending /\
      encodedTxId after = encodedTxId pending /\
      txRequest after = txRequest pending /\
      requiredSignatures after = requiredSignatures pending /\
      transaction after = transaction pending /\
      walletName after = walletName pending /\
      networkName after = networkName pending /\
      createdAt after = createdAt pending
  end.
Proof.
  destruct (sign_each_frame calls pending log) as [Hnone|(after & Hfile & Hsame & _)].
  - rewrite Hnone. exact I.
  - rewrite Hfile. unfold sameButSignatures in Hsame. rewrite <- Hsame. cbn.
    repeat split.
Qed.

(** X16. [sign] never stores the signature with which the entries would
    reach the threshold: after any sequence of runs, the stored list either
    is no longer than it was before, or is strictly shorter than the
    threshold. A transaction that starts with fewer entries than its
    threshold therefore never holds as many entries as the threshold. *)
Theorem sign_stores_fewer_than_threshold (calls : list SignCall)
    (pending : PendingTransaction) (log : list Tx) :
  match pending_file (sign_each calls {| pending_file := Some pending; sent := log |}) with
  | None => True
  | Some after =>
      (Z.of_nat (length (signatures after)) <= Z.of_nat (length (signatures pending))
       \/ Z.of_nat (length (signatures after)) < requiredSignatures after)
      /\ (Z.of_nat (length (signatures pending)) < requiredSignatures pending ->
          Z.of_nat (length (signatures after)) < requiredSignatures after)
  end.
Proof.
  destruct (sign_each_frame calls pending log) as [Hnone|(after & Hfile & Hsame & Hlen)].
  - rewrite Hnone. exact I.
  - rewrite Hfile. unfold sameButSignatures in Hsame.
    assert (Hreq : requiredSignatures after = requiredSignatures pending)
      by (rewrite <- Hsame; reflexivity).
    rewrite Hreq. split; [lia|]. intros Hlt. lia.
Qed.

Lemma sign_stores_fewer_than_threshold_witness :
  Z.of_nat (length (signatures trio_unsigned)) < requiredSignatures trio_unsigned
  /\ exists after,
       pending_file (sign_each alice_bob_alice (world_with trio_unsigned)) = Some after /\
       Z.of_nat (length (signatures after)) < requiredSignatures after.
Proof.
  assert (H : Z.of_nat (length (signatures trio_unsigned))
              < requiredSignatures trio_unsigned) by (vm_compute; reflexivity).
  split; [exact H|].
  eexists. split; [reflexivity|].
  exact (proj2 (sign_stores_fewer_than_threshold alice_bob_alice trio_unsigned []) H).
Defined.

Lemma uniqueCount_le_length (sigs : list SigEntry) :
  0 <= uniqueCount sigs <= Z.of_nat (length sigs).
Proof.
  unfold uniqueCount. split; [lia|].
  apply Nat2Z.inj_le.
  rewrite <- (length_map entry_signer sigs).
  apply NoDup_incl_length; [apply NoDup_nodup|].
  intros x Hx. apply nodup_In in Hx. exact Hx.
Qed.

Lemma sendTx_refuses (env : Env) (options : SendTxOptions) (confirm_send : bool)
    (w : World) :
  readyToSend w = false ->
  sendTx env options confirm_send w = (w, Ok SendNoPending)
  \/ exists have need,
       have < need /\
       sendTx env options confirm_send w = (w, Ok (InsufficientSignatures have need)).
Proof.
  unfold readyToSend, sendTx. unfold_cmd.
  destruct (pending_file w) as [pending|]; cbn; [|auto].
  intros Hgate. apply negb_false_iff in Hgate. rewrite Hgate.
  right. eexists _, _. split; [|reflexivity]. apply Z.ltb_lt. exact Hgate.
Qed.

(** X17. A transaction that [createTx] created and that was then signed by
    any sequence of [sign] runs is never ready for [sendTx]: if it is still
    stored, the count of unique signers [sendTx] reads from it is below the
    threshold, so [sendTx] reports the missing signatures (or that nothing
    is pending) and changes nothing. *)
Theorem created_then_signed_is_not_ready (env : Env) (options : CreateTxOptions)
    (replace : bool) (w : World) (result : CreateTxResult) (calls : list SignCall) :
  outcome_of (createTx env options replace) w = Ok (Created result) ->
  readyToSend (sign_each calls (world_after (createTx env options replace) w)) = false
  /\
  forall sendEnv sendOptions confirm_send,
    sendTx sendEnv sendOptions confirm_send
      (sign_each calls (world_after (createTx env options replace) w))
    = (sign_each calls (world_after (createTx env options replace) w),
       Ok SendNoPending)
    \/ exists have need,
         have < need /\
         sendTx sendEnv sendOptions confirm_send
           (sign_each calls (world_after (createTx env options replace) w))
         = (sign_each calls (world_after (createTx env options replace) w),
            Ok (InsufficientSignatures have need)).
Proof.
  intros Hcreated.
  assert (Hgate : readyToSend (sign_each calls (world_after (createTx env options replace) w))
                  = false).
  { destruct (createTx_created env options replace w result Hcreated)
      as (fresh & wc & Hfile & _ & Hsig & _ & _ & _ & _ & Hbound).
    destruct (world_after (createTx env options replace) w) as [file log].
    cbn in Hfile. subst file.
    unfold readyToSend.
    destruct (sign_each_frame calls fresh log) as [Hnone|(after & Hafter & Hsame & Hlen)].
    - rewrite Hnone. reflexivity.
    - rewrite Hafter. apply negb_false_iff. apply Z.ltb_lt.
      assert (Hreq : requiredSignatures after = requiredSignatures fresh).
      { unfold sameButSignatures in Hsame. rewrite <- Hsame. reflexivity. }
      rewrite Hsig in Hlen. cbn in Hlen.
      pose proof (uniqueCount_le_length (signatures after)). lia. }
  split; [exact Hgate|].
  intros sendEnv sendOptions confirm_send.
  apply sendTx_refuses. exact Hgate.
Qed.

Lemma created_then_signed_is_not_ready_witness :
  exists result,
    outcome_of (createTx (demo_env "n") demo_create_options false) no_pending
      = Ok (Created result) /\
    readyToSend (sign_each alice_bob_alice
                   (world_after (createTx (demo_env "n") demo_create_options false)
                      no_pending)) = false.
Proof.
  eexists. split; [reflexivity|].
  apply (created_then_signed_is_not_ready (demo_env "n") demo_create_options false
           no_pending _ alice_bob_alice eq_refl).
Defined.

(** X18. A run of [sign] hands at most one transaction to [vault.send],
    and only when the send offer was accepted with the number of stored
    entries plus one at the threshold. That transaction carries a single
    witness, the encoding of the signature just made, whatever the
    threshold and whatever is stored. *)
Theorem sign_sends_one_witness (c : SignCall) (w : World) :
  sent (world_after (run_sign c) w) = sent w
  \/ exists pending sig vault request encoded,
       sendNow (call_answers c) = true /\
       pending_file w = Some pending /\
       signedBy (hashTxId pending) c = Some sig /\
       requiredSignatures pending <= Z.of_nat (length (signatures pending)) + 1 /\
       vault_encodeSignature (call_env c) vault (Some (signer sig))
         (Some (signature sig)) = Ok encoded /\
       sent (world_after (run_sign c) w)
         = (sent w ++ [{| tx_request := request; witnesses := [encoded] |}])%list.
Proof.
  destruct w as [[pending|] log]; [|left; reflexivity].
  unfold world_after, run_sign, sign. unfold_cmd. cbn.
  destruct (Wallet_fromPrivateKey (call_env c) _) as [a|e] eqn:Ha; [|left; reflexivity].
  destruct (wallet_signMessage (call_env c) _ _) as [b|e] eqn:Hb; [|left; reflexivity].
  assert (Hsigned : signedBy (hashTxId pending) c = Some {| signer := a; signature := b |}).
  { unfold signedBy. cbv zeta. rewrite Ha, Hb. reflexivity. }
  destruct (Z.of_nat (length (signatures pending)) + 1 >=? requiredSignatures pending)
    eqn:Hge.
  2:{ left. destruct (includes (signatures pending) _); reflexivity. }
  destruct (sendNow (call_answers c)) eqn:Hnow; [|left; reflexivity].
  destruct (loadWalletConfig (call_env c) (walletName pending)) as [wc|e];
    [|left; reflexivity].
  destruct (loadNetworkConfig (call_env c) (networkName pending)) as [nc|e];
    [|left; reflexivity].
  set (sig := {| signer := a; signature := b |}).
  set (w := {| pending_file := Some pending; sent := log |}).
  destruct (sendTransaction_cases (call_env c) {| wallet := wc; network := nc |}
              [SigObject sig] w)
    as [(e & w' & Hs & _ & [Hlog|(v & bt & enc & _ & Henc & Hlog)])
       |(v & p & bt & enc & r & st & _ & _ & Henc & _ & _ & Hs)];
    rewrite Hs; cbn [fst sent].
  - left. exact Hlog.
  - right. cbn in Henc.
    destruct (vault_encodeSignature (call_env c) v (Some a) (Some b)) as [x|] eqn:Hx;
      [|discriminate].
    inversion Henc; subst enc.
    exists pending, sig, v, (tx_request (fst bt)), x.
    rewrite Z.geb_leb in Hge. apply Z.leb_le in Hge.
    repeat split; auto.
  - right. cbn in Henc.
    destruct (vault_encodeSignature (call_env c) v (Some a) (Some b)) as [x|] eqn:Hx;
      [|discriminate].
    inversion Henc; subst enc.
    exists pending, sig, v, (tx_request (fst bt)), x.
    rewrite Z.geb_leb in Hge. apply Z.leb_le in Hge.
    repeat split; auto.
Qed.

(** X19. A run of [sign] that declines the send offer changes the world at
    most once: the same run made again leaves everything as the first run
    left it. *)
Theorem sign_again_changes_nothing (c : SignCall) (w : World) :
  sendNow (call_answers c) = false ->
  world_after (run_sign c) (world_after (run_sign c) w) = world_after (run_sign c) w.
Proof.
  intros Hdecl. destruct w as [[pending|] log]; [|reflexivity].
  unfold world_after.
  assert (Hat : forall p sig,
             signedBy (hashTxId p) c = Some sig ->
             requiredSignatures p <= Z.of_nat (length (signatures p)) + 1 ->
             fst (run_sign c {| pending_file := Some p; sent := log |})
             = {| pending_file := Some p; sent := log |}).
  { intros p sig Hsig Hle.
    destruct (sign_at_threshold c p log sig Hsig Hle) as (w' & step & Hrun & Hno & _).
    rewrite Hrun. cbn. apply Hno. exact Hdecl. }
  destruct (signedBy (hashTxId pending) c) as [sig|] eqn:Hsig.
  2:{ destruct (sign_error c pending log Hsig) as [e He]. rewrite He. cbn.
      rewrite He. reflexivity. }
  destruct (Z_lt_le_dec (Z.of_nat (length (signatures pending)) + 1)
              (requiredSignatures pending)) as [Hlt|Hle].
  - rewrite (sign_below_threshold c pending log sig Hsig Hlt). cbn [fst].
    destruct (includes (signatures pending) sig) eqn:Hin.
    + rewrite (sign_below_threshold c pending log sig Hsig Hlt), Hin. reflexivity.
    + set (pushed := push_signature pending (SigText sig)).
      assert (Hsig' : signedBy (hashTxId pushed) c = Some sig) by exact Hsig.
      destruct (Z_lt_le_dec (Z.of_nat (length (signatures pushed)) + 1)
                  (requiredSignatures pushed)) as [Hlt'|Hle'].
      * rewrite (sign_below_threshold c pushed log sig Hsig' Hlt'). cbn [fst].
        unfold pushed at 1. cbn [signatures push_signature].
        rewrite includes_pushed. reflexivity.
      * apply (Hat pushed sig Hsig' Hle').
  - rewrite (Hat pending sig Hsig Hle). apply (Hat pending sig Hsig Hle).
Qed.

Lemma sign_again_changes_nothing_witness :
  sendNow (call_answers alice_again) = false
  /\ world_after (run_sign alice_again)
       (world_after (run_sign alice_again) (world_with trio_signed_once))
     = world_after (run_sign alice_again) (world_with trio_signed_once).
Proof.
  split; [reflexivity|].
  apply (sign_again_changes_nothing alice_again (world_with trio_signed_once)).
  reflexivity.
Defined.

(** X20. When deriving the wallet from the private key or signing the hash
    throws, [sign] reports that error and changes nothing: no signature is
    stored and nothing is sent. The key used is the [--pk] option, or the
    one typed at the prompt when the option is missing or empty. *)
Theorem sign_reports_sdk_errors (env : Env) (options : SignOptions)
    (answers : SignAnswers) (w : World) (pending : PendingTransaction)
    (message : string) :
  pending_file w = Some pending ->
  Wallet_fromPrivateKey env (privateKeyOf options answers) = Throw message
  \/ (exists address,
        Wallet_fromPrivateKey env (privateKeyOf options answers) = Ok address /\
        wallet_signMessage env (privateKeyOf options answers) (hashTxId pending)
          = Throw message) ->
  sign env options answers w = (w, Ok (SignError message)).
Proof.
  intros Hp Herr. unfold sign. unfold_cmd. rewrite Hp. cbn.
  destruct Herr as [Hkey|(address & Hkey & Hsign)].
  - rewrite Hkey. reflexivity.
  - rewrite Hkey, Hsign. reflexivity.
Qed.

Lemma sign_reports_sdk_errors_witness :
  pending_file (world_with trio_unsigned) = Some trio_unsigned
  /\ Wallet_fromPrivateKey bad_key_env
       (privateKeyOf {| pk := Some "oops" |} {| pk_answer := EmptyString; sendNow := true |})
     = Throw "Invalid private key"
  /\ sign bad_key_env {| pk := Some "oops" |}
       {| pk_answer := EmptyString; sendNow := true |} (world_with trio_unsigned)
     = (world_with trio_unsigned, Ok (SignError "Invalid private key")).
Proof.
  split; [reflexivity|]. split; [reflexivity|].
  apply (sign_reports_sdk_errors bad_key_env _ _ (world_with trio_unsigned)
           trio_unsigned "Invalid private key" eq_refl).
  left. reflexivity.
Defined.

(** ** The [send-tx] command *)

Lemma NoDup_same_elements_length {A : Type} (l1 l2 : list A) :
  NoDup l1 -> NoDup l2 -> (forall x, In x l1 <-> In x l2) ->
  length l1 = length l2.
Proof.
  intros H1 H2 H. apply Nat.le_antisymm; apply NoDup_incl_length; auto;
    intros x Hx; apply H; exact Hx.
Qed.

(** X21. The count of unique signers that gates [sendTx] counts each value
    of [signer] once: it lies between 0 and the number of entries, it is not
    raised by a further entry whose signer is already there and is raised
    by one otherwise, and it never exceeds the number of values the signers
    are drawn from. *)
Theorem uniqueCount_counts_each_signer_once (sigs : list SigEntry) :
  0 <= uniqueCount sigs <= Z.of_nat (length sigs)
  /\ (forall e,
        In (entry_signer e) (map entry_signer sigs) ->
        uniqueCount (sigs ++ [e]) = uniqueCount sigs)
  /\ (forall e,
        ~ In (entry_signer e) (map entry_signer sigs) ->
        uniqueCount (sigs ++ [e]) = uniqueCount sigs + 1)
  /\ (forall allowed,
        (forall e, In e sigs -> In (entry_signer e) allowed) ->
        uniqueCount sigs <= Z.of_nat (length allowed)).
Proof.
  split; [apply uniqueCount_le_length|]. unfold uniqueCount. split; [|split].
  - intros e Hin. f_equal. apply nodup_length_same_elements.
    intros x. rewrite map_app, in_app_iff. cbn. split; [|auto].
    intros [H|[H|[]]]; [exact H|]. subst x. exact Hin.
  - intros e Hout.
    assert (Hlen : length (nodup JsString_eq_dec (map entry_signer (sigs ++ [e])))
                   = length (entry_signer e
                             :: nodup JsString_eq_dec (map entry_signer sigs))).
    { apply NoDup_same_elements_length.
      - apply NoDup_nodup.
      - constructor; [|apply NoDup_nodup]. rewrite nodup_In. exact Hout.
      - intros x. rewrite nodup_In, map_app, in_app_iff. cbn. rewrite nodup_In.
        split.
        + intros [H|[H|[]]]; auto.
        + intros [H|H]; auto. }
    rewrite Hlen. cbn [length]. lia.
  - intros allowed Hall. apply Nat2Z.inj_le.
    apply NoDup_incl_length; [apply NoDup_nodup|].
    intros x Hx. apply nodup_In in Hx. apply in_map_iff in Hx as (e & He & Hin).
    subst x. apply Hall. exact Hin.
Qed.

Lemma uniqueCount_counts_each_signer_once_witness :
  In (entry_signer (SigObject alice_second))
    (map entry_signer (signatures duo_signed_by_both))
  /\ uniqueCount (signatures duo_signed_by_both ++ [SigObject alice_second])
     = uniqueCount (signatures duo_signed_by_both).
Proof.
  assert (H : In (entry_signer (SigObject alice_second))
                (map entry_signer (signatures duo_signed_by_both)))
    by (left; reflexivity).
  split; [exact H|].
  exact (proj1 (proj2 (uniqueCount_counts_each_signer_once
                         (signatures duo_signed_by_both)))
           (SigObject alice_second) H).
Defined.

(** X22. [sendTx] hands a transaction to [vault.send] only when the send
    was confirmed, a pending transaction is stored whose count of unique
    signers is at least the threshold, and the stored wallet and the
    network (the [--network] option when given, else the stored one) load;
    a send that is not confirmed changes nothing. *)
Theorem sendTx_submits_only_past_the_gate (env : Env) (options : SendTxOptions)
    (confirm_send : bool) (w : World) :
  (confirm_send = false -> world_after (sendTx env options confirm_send) w = w)
  /\
  (sent (world_after (sendTx env options confirm_send) w) = sent w
   \/ exists pending walletConfig networkConfig,
        confirm_send = true /\
        pending_file w = Some pending /\
        requiredSignatures pending <= uniqueCount (signatures pending) /\
        loadWalletConfig env (walletName pending) = Ok walletConfig /\
        loadNetworkConfig env (or_else (send_network options) (networkName pending))
          = Ok networkConfig).
Proof.
  unfold world_after, sendTx. unfold_cmd.
  destruct (pending_file w) as [pending|] eqn:Hp; cbn; [|auto].
  destruct (uniqueCount (signatures pending) <? requiredSignatures pending) eqn:Hgate;
    [auto|].
  apply Z.ltb_ge in Hgate.
  destruct confirm_send; cbn; [|auto].
  split; [discriminate|].
  destruct (loadWalletConfig env (walletName pending)) as [wc|e] eqn:Hw; [|auto].
  destruct (loadNetworkConfig env _) as [nc|e] eqn:Hn; [|auto].
  right. exists pending, wc, nc. auto.
Qed.

Lemma sendTx_submits_only_past_the_gate_witness :
  world_after (sendTx (demo_env "n") no_flags false) (world_with duo_signed_by_both)
  = world_with duo_signed_by_both.
Proof.
  apply (proj1 (sendTx_submits_only_past_the_gate (demo_env "n") no_flags false
                  (world_with duo_signed_by_both))).
  reflexivity.
Defined.

(** ** The [send-tx] command that reads its signatures *)

Lemma collect_length (typed : nat -> Signature) (n i : nat) :
  length (SendTxCli.collect typed i n) = n.
Proof.
  revert i. induction n as [|n IH]; intros i; cbn; [reflexivity|].
  rewrite IH. reflexivity.
Qed.

(** X23. A signature given with [-s] and [-S] serves a threshold of 1 only:
    with both flags and a threshold of 2 or more the command reports one
    signature against the threshold and changes nothing, whatever is
    stored. *)
Theorem SendTxCli_flags_serve_threshold_one (env : Env) (options : SendTxOptions)
    (typed : nat -> Signature) (confirm_send : bool) (w : World)
    (pending : PendingTransaction) :
  pending_file w = Some pending ->
  truthy (send_signer options) = true ->
  truthy (send_signature options) = true ->
  2 <= requiredSignatures pending ->
  SendTxCli.sendTx env options typed confirm_send w
    = (w, Ok (InsufficientSignatures 1 (requiredSignatures pending))).
Proof.
  intros Hp Hs Hg Hreq. unfold SendTxCli.sendTx. unfold_cmd.
  rewrite Hp, Hs, Hg. cbn.
  assert (Hlt : (1 <? requiredSignatures pending) = true) by (apply Z.ltb_lt; lia).
  rewrite Hlt. reflexivity.
Qed.

Lemma SendTxCli_flags_serve_threshold_one_witness :
  pending_file (world_with duo_signed_by_both) = Some duo_signed_by_both
  /\ truthy (send_signer bob_flags) = true
  /\ truthy (send_signature bob_flags) = true
  /\ 2 <= requiredSignatures duo_signed_by_both
  /\ SendTxCli.sendTx (demo_env "n") bob_flags (fun _ => alice_first) true
       (world_with duo_signed_by_both)
     = (world_with duo_signed_by_both, Ok (InsufficientSignatures 1 2)).
Proof.
  do 3 (split; [reflexivity|]).
  assert (H : 2 <= requiredSignatures duo_signed_by_both) by (vm_compute; discriminate).
  split; [exact H|].
  apply (SendTxCli_flags_serve_threshold_one (demo_env "n") bob_flags
           (fun _ => alice_first) true (world_with duo_signed_by_both)
           duo_signed_by_both eq_refl eq_refl eq_refl H).
Defined.

(** X24. Without both flags the command asks for as many signatures as the
    threshold and never reports too few: it does not check that the typed
    signers differ. What it sends carries one witness per typed pair, and
    neither its outcome nor what it sends depends on the signatures
    stored in the pending transaction. *)
Theorem SendTxCli_prompts_for_the_threshold (env : Env) (options : SendTxOptions)
    (typed : nat -> Signature) (confirm_send : bool)
    (pending : PendingTransaction) (log : list Tx) :
  truthy (send_signer options) && truthy (send_signature options) = false ->
  (forall have need,
      outcome_of (SendTxCli.sendTx env options typed confirm_send)
        {| pending_file := Some pending; sent := log |}
      <> Ok (InsufficientSignatures have need))
  /\
  (sent (world_after (SendTxCli.sendTx env options typed confirm_send)
           {| pending_file := Some pending; sent := log |}) = log
   \/ exists request encoded,
        length encoded = Z.to_nat (requiredSignatures pending) /\
        sent (world_after (SendTxCli.sendTx env options typed confirm_send)
                {| pending_file := Some pending; sent := log |})
        = (log ++ [{| tx_request := request; witnesses := encoded |}])%list)
  /\
  (forall stored,
      outcome_of (SendTxCli.sendTx env options typed confirm_send)
        {| pending_file := Some (with_signatures pending stored); sent := log |}
      = outcome_of (SendTxCli.sendTx env options typed confirm_send)
          {| pending_file := Some pending; sent := log |}
      /\
      sent (world_after (SendTxCli.sendTx env options typed confirm_send)
              {| pending_file := Some (with_signatures pending stored); sent := log |})
      = sent (world_after (SendTxCli.sendTx env options typed confirm_send)
                {| pending_file := Some pending; sent := log |})).
Proof.
  intros Hflags.
  assert (Hcount : (Z.of_nat (length (SendTxCli.collect typed 0
                                        (Z.to_nat (requiredSignatures pending))))
                    <? requiredSignatures pending) = false).
  { rewrite collect_length. apply Z.ltb_ge.
    lia. }
  unfold outcome_of, world_after, SendTxCli.sendTx. unfold_cmd. cbn.
  rewrite Hflags, Hcount.
  split; [|split].
  - intros have need.
    destruct confirm_send; cbn; [|discriminate].
    destruct (loadWalletConfig env _); [|discriminate].
    destruct (loadNetworkConfig env _); [|discriminate].
    destruct (sendTransaction env _ _ _) as [w' [r|e]]; discriminate.
  - destruct confirm_send; cbn; [|auto].
    destruct (loadWalletConfig env _) as [wc|e]; [|auto].
    destruct (loadNetworkConfig env _) as [nc|e]; [|auto].
    set (sigs := SendTxCli.collect typed 0 (Z.to_nat (requiredSignatures pending))).
    set (w := {| pending_file := Some pending; sent := log |}).
    destruct (sendTransaction_cases env {| wallet := wc; network := nc |} sigs w)
      as [(e & w' & Hs & _ & [Hlog|(v & b & enc & _ & Henc & Hlog)])
         |(v & p & b & enc & r & st & _ & _ & Henc & _ & _ & Hs)];
      rewrite Hs; cbn [fst sent].
    + left. exact Hlog.
    + right. exists (tx_request (fst b)), enc. split; [|exact Hlog].
      rewrite (encodeWitnesses_length _ _ _ _ Henc). apply collect_length.
    + right. exists (tx_request (fst b)), enc. split; [|reflexivity].
      rewrite (encodeWitnesses_length _ _ _ _ Henc). apply collect_length.
  - intros stored.
    destruct confirm_send; cbn; [|auto].
    destruct (loadWalletConfig env _) as [wc|e]; [|auto].
    destruct (loadNetworkConfig env _) as [nc|e]; [|auto].
    unfold sendTransaction. unfold_cmd. cbn.
    destruct (createVaultInstance env _) as [vault|e]; [|auto].
    destruct (vault_transaction env vault _ _ _) as [built|e]; [|auto].
    destruct (encodeWitnesses env vault _) as [encoded|e]; [|auto].
    destruct (vault_send env vault _) as [response|e]; [|auto].
    destruct (response_waitForResult env response) as [st|e]; auto.
Qed.

Lemma SendTxCli_prompts_for_the_threshold_witness :
  truthy (send_signer no_flags) && truthy (send_signature no_flags) = false
  /\ sent (world_after (SendTxCli.sendTx (demo_env "n") no_flags
                          (fun _ => alice_first) true)
             (world_with trio_unsigned))
     = [demo_tx ["0xa11ce:sig-a11ce-n1"; "0xa11ce:sig-a11ce-n1";
                 "0xa11ce:sig-a11ce-n1"]]
  /\ forall have need,
       outcome_of (SendTxCli.sendTx (demo_env "n") no_flags (fun _ => alice_first) true)
         (world_with trio_unsigned)
       <> Ok (InsufficientSignatures have need).
Proof.
  split; [reflexivity|]. split; [reflexivity|].
  apply (proj1 (SendTxCli_prompts_for_the_threshold (demo_env "n") no_flags
                  (fun _ => alice_first) true trio_unsigned [] eq_refl)).
Defined.
